(** * epigen.plink.genmodels: generative models for paired-locus data

    A shallow embedding of [src/epigen/plink/genmodels.py].

    Conventions of the embedding:
    - Python floats are exact rationals ([Q]); results are compared with
      [Qeq] ([==]), list results pointwise.
    - Python ints are [Z].
    - A Python call that may raise returns a [result]; code that also draws
      from the process-wide [random] source is a state-passing function on
      the source's state, which is returned even when the call raises.
    - The semantics is Python 3's (ordering [None] against a float raises
      [TypeError]). *)

From Stdlib Require Import ZArith QArith Qfield Lqa List String Bool Lia.
Import ListNotations.

Open Scope Z_scope.

(** ** The Python runtime fragment the module relies on *)

Module Py.

(** Exceptions raised by the module and by the runtime underneath it; an
    exception of a class that a program defines itself is [UserError], with
    the class's name. *)
Inductive exn : Type :=
| TypeError
| NameError
| ZeroDivisionError
| IndexError
| OverflowError
| ValueError (msg : string)
| UserError (cls : string) (msg : string).

(** The exception's class name, [type(e).__name__]. *)
Definition exn_name (e : exn) : string :=
  match e with
  | TypeError => "TypeError"
  | NameError => "NameError"
  | ZeroDivisionError => "ZeroDivisionError"
  | IndexError => "IndexError"
  | OverflowError => "OverflowError"
  | ValueError _ => "ValueError"
  | UserError cls _ => cls
  end.

Inductive result (A : Type) : Type :=
| Ok (a : A)
| Raise (e : exn).
Arguments Ok {A} a.
Arguments Raise {A} e.

Definition bind {A B : Type} (r : result A) (k : A -> result B) : result B :=
  match r with
  | Ok a => k a
  | Raise e => Raise e
  end.

(** [[ f(x) for x in l ]] where [f] may raise: elements are evaluated left to
    right and the first exception aborts the comprehension. *)
Fixpoint traverse {A B : Type} (f : A -> result B) (l : list A) : result (list B) :=
  match l with
  | [] => Ok []
  | x :: t =>
      bind (f x) (fun y => bind (traverse f t) (fun ys => Ok (y :: ys)))
  end.

(** Values that are not statically of one type in the source: the result of a
    mean map ([None] or a float), the arguments of a call, a global name. *)
Inductive value : Type :=
| VNone
| VInt (z : Z)
| VFloat (q : Q)
| VObject (name : string).

(** [seq[i]] for an int [i], negative indices counting from the end. *)
Definition index {A : Type} (l : list A) (i : Z) : result A :=
  let n := Z.of_nat (List.length l) in
  let j := if i <? 0 then i + n else i in
  if (j <? 0) || (n <=? j) then Raise IndexError
  else match nth_error l (Z.to_nat j) with
       | Some a => Ok a
       | None => Raise IndexError
       end.

(** The builtin [sum] over floats: starts from 0 and adds left to right. *)
Definition sum (l : list Q) : Q := fold_left Qplus l 0%Q.

(** [a / b] on floats. *)
Definition div (a b : Q) : result Q :=
  if Qeq_bool b 0 then Raise ZeroDivisionError else Ok (a / b)%Q.

(** [zip] of two and of three sequences: stops at the shortest. *)
Definition zip {A B : Type} (a : list A) (b : list B) : list (A * B) := combine a b.

Definition zip3 {A B C : Type} (a : list A) (b : list B) (c : list C)
  : list (A * B * C) := combine (combine a b) c.

(** [[x] * n]: empty when [n <= 0]. *)
Definition replicate {A : Type} (x : A) (n : Z) : list A := repeat x (Z.to_nat n).

(** [a + b] where [a] is a dynamically typed value and [b] a float: defined on
    numbers only. *)
Definition add (a : value) (b : Q) : result Q :=
  match a with
  | VFloat x => Ok (x + b)%Q
  | VInt z => Ok (inject_Z z + b)%Q
  | _ => Raise TypeError
  end.

(** [p <= a] where [p] is a float and [a] a dynamically typed value: defined
    on numbers only. *)
Definition le (p : Q) (a : value) : result bool :=
  match a with
  | VFloat x => Ok (Qle_bool p x)
  | VInt z => Ok (Qle_bool p (inject_Z z))
  | _ => Raise TypeError
  end.

(** The float held by a value used as an arithmetic operand; [float(a)]. *)
Definition to_float (a : value) : result Q :=
  match a with
  | VFloat x => Ok x
  | VInt z => Ok (inject_Z z)
  | _ => Raise TypeError
  end.

(** [int(b)] of a bool. *)
Definition int_of_bool (b : bool) : Z := if b then 1 else 0.

(** A bound-method call [self.f(args)]: the instance is passed as the first
    positional argument of the underlying function. *)
Definition call_method {R : Type} (f : list value -> result R)
    (self : value) (args : list value) : result R :=
  f (self :: args).

End Py.

Import Py.

Notation "x <- e ;; k" := (bind e (fun x => k))
  (at level 61, e at next level, right associativity).

(** Pointwise [Qeq] on float lists. *)
Definition Qlist_eq : list Q -> list Q -> Prop := Forall2 Qeq.

(** ** Concrete collaborators, used to run the module on inputs *)

Module Fixture.

(** A random source whose state counts the draws made so far; draw number [s]
    is [1 / (s + 2)]. *)
Definition rng : Type := nat.

Definition random_random (s : rng) : Q * rng :=
  (1 # Pos.of_succ_nat (S s), S s).

Definition normal_deviate (s : rng) : Q * rng :=
  (inject_Z (Z.of_nat s) - 1, S s)%Q.

(** Rational stand-ins for the [math] functions. *)
Definition math_pi : Q := 355 # 113.

Definition math_exp (x : Q) : Q := (1 + x + x ^ 2 / 2 + x ^ 3 / 6)%Q.

Definition sqrt_nonneg (x : Q) : Q :=
  let step := fun y : Q => if Qeq_bool y 0 then 0%Q else ((y + x / y) / 2)%Q in
  Qred (step (Qred (step (Qred (step 1%Q))))).

(** Genotype frequencies of one locus under Hardy-Weinberg proportions. *)
Definition genotype_freq (p : Q) : list Q :=
  [ ((1 - p) ^ 2)%Q; (2 * p * (1 - p))%Q; (p ^ 2)%Q ].

(** A joint-frequency calculator for independent loci. *)
Definition joint_maf (maf : list Q) (ld : option Q) : result (list Q) :=
  p <- index maf 0 ;;
  q <- index maf 1 ;;
  Ok (flat_map (fun a => map (fun b => Qred (a * b)) (genotype_freq q))
        (genotype_freq p)).

(** The flat table with all nine entries equal. *)
Definition uniform_table : list Q := repeat (1 # 9) 9.

(** A rational stand-in for [math.log] above zero. *)
Definition log_pos (x : Q) : Q := (2 * (x - 1) / (x + 1))%Q.

(** A rational just below the largest argument of [math.exp]. *)
Definition exp_max : Q := 709.

(** A sampler that walks through the nine states in row-major order, one
    state per call. *)
Definition sample_categorical (prob : list Q) (s : rng)
  : result (Z * Z) * rng :=
  (Ok (Z.of_nat ((s / 3) mod 3), Z.of_nat (s mod 3)), S s).

End Fixture.

(** ** The module *)

Section Genmodels.

(** *** What the module imports *)

(** The state of the process-wide [random] source. *)
Variable rng : Type.

(** [random.random()]: the next float in [[0, 1)] and the advanced state. *)
Variable random_random : rng -> Q * rng.
Hypothesis random_random_range :
  forall s, (0 <= fst (random_random s) /\ fst (random_random s) < 1)%Q.

(** The standard normal deviate that [random.normalvariate] draws before it
    scales it, with the advanced state. *)
Variable normal_deviate : rng -> Q * rng.

(** [math.exp], [math.pi], [math.sqrt] on its domain and the float power
    [x ** .5]. *)
Variable math_exp : Q -> Q.
Variable math_pi : Q.
Variable sqrt_nonneg : Q -> Q.
Variable pow_half : Q -> Q.

(** [epigen.plink.util.joint_maf(maf, ld)]: the flat 9-entry joint table of
    two marginal frequencies under an optional LD strength. *)
Variable joint_maf : list Q -> option Q -> result (list Q).

(** [epigen.plink.util.sample_categorical(prob)]: one genotype pair drawn from
    a 9-entry probability vector. *)
Variable sample_categorical : list Q -> rng -> result (Z * Z) * rng.

(** Code that draws from the random source. *)
Definition rand (A : Type) : Type := rng -> result A * rng.

Definition ret {A : Type} (a : A) : rand A := fun s => (Ok a, s).

Definition lift {A : Type} (r : result A) : rand A := fun s => (r, s).

Definition bind_rand {A B : Type} (m : rand A) (k : A -> rand B) : rand B :=
  fun s =>
    match m s with
    | (Ok a, s') => k a s'
    | (Raise e, s') => (Raise e, s')
    end.

Notation "x <~ e ;; k" := (bind_rand e (fun x => k))
  (at level 61, e at next level, right associativity).

Fixpoint traverse_rand {A B : Type} (f : A -> rand B) (l : list A) : rand (list B) :=
  match l with
  | [] => ret []
  | x :: t => y <~ f x ;; ys <~ traverse_rand f t ;; ret (y :: ys)
  end.

Definition random : rand Q :=
  fun s => let (u, s') := random_random s in (Ok u, s').

(** [math.sqrt(x)]: a [ValueError] below zero. *)
Definition math_sqrt (x : Q) : result Q :=
  if Qle_bool 0 x then Ok (sqrt_nonneg x) else Raise (ValueError "math domain error").

(** [random.normalvariate(mu, sigma)] returns [mu + z * sigma] for a standard
    normal deviate [z]. *)
Definition random_normalvariate (mu : value) (sigma : Q) : rand Q :=
  fun s => let (z, s') := normal_deviate s in (add mu (z * sigma)%Q, s').

(** [range(n)] as the list of its elements. *)
Definition range (n : Z) : list Z := map Z.of_nat (seq 0 (Z.to_nat n)).

(** *** class FixedParams *)

Record FixedParams : Type := {
  fp_maf : list Q;
  fp_ld : option Q;
  fp_sample_size : list Z;
  fp_sample_maf : bool
}.

Definition get_maf (self : FixedParams) : rand (list Q) :=
  if negb (fp_sample_maf self) then
    lift (joint_maf (fp_maf self) (fp_ld self))
  else
    start <~ lift (index (fp_maf self) 0) ;;
    hi <~ lift (index (fp_maf self) 1) ;;
    let end_ := (hi - start)%Q in
    u1 <~ random ;;
    let m1 := (start + end_ * u1)%Q in
    u2 <~ random ;;
    let m2 := (start + end_ * u2)%Q in
    lift (joint_maf [m1; m2] (fp_ld self)).

Definition num_samples (self : FixedParams) : result Z :=
  index (fp_sample_size self) 0.

Definition num_cases (self : FixedParams) : result Z :=
  index (fp_sample_size self) 0.

Definition num_controls (self : FixedParams) : result Z :=
  index (fp_sample_size self) 1.

(** *** class BinomialModel *)

Definition BinomialModel_generate_phenotype (fixed_params : FixedParams)
  : result (list Z) :=
  cases <- num_cases fixed_params ;;
  controls <- num_controls fixed_params ;;
  Ok (replicate 1 cases ++ replicate 0 controls).

Definition BinomialModel_joint_prob (maf penetrance : list Q) (phenotype : Z)
  : result (list Q) :=
  let geno_prob := map (fun '(p, f) => (p * f)%Q) (zip penetrance maf) in
  let geno_denom := sum geno_prob in
  traverse (fun g => div g geno_denom) geno_prob.

Definition BinomialModel_generate_genotype (fixed_params : FixedParams)
    (penetrance : list Q) (phenotype : list Z) : rand (list Z * list Z) :=
  maf <~ get_maf fixed_params ;;
  p1 <~ lift (BinomialModel_joint_prob maf penetrance 1) ;;
  p0 <~ lift (BinomialModel_joint_prob maf penetrance 0) ;;
  let prob := [p1; p0] in
  drawn <~ traverse_rand
             (fun pheno => pr <~ lift (index prob pheno) ;; sample_categorical pr)
             phenotype ;;
  ret (map fst drawn, map snd drawn).

Definition BinomialModel_is_binary : bool := true.

(** *** class NormalModel *)

Record NormalModel : Type := {
  nm_mu : list Q;
  nm_std : list Q;
  nm_maf : list Q
}.

Definition NormalModel_init (mu std maf : list Q) : result NormalModel :=
  joint <- joint_maf maf None ;;
  Ok {| nm_mu := mu; nm_std := std; nm_maf := joint |}.

Definition NormalModel_generate_phenotype (self : NormalModel)
    (fixed_params : FixedParams) : rand (list Q) :=
  let mu := sum (map (fun '(m, f) => (m * f)%Q) (zip (nm_mu self) (nm_maf self))) in
  let mu2 := sum (map (fun '(m, f) => (m ^ 2 * f)%Q) (zip (nm_mu self) (nm_maf self))) in
  let std2 := sum (map (fun '(s, f) => (s ^ 2 * f)%Q) (zip (nm_std self) (nm_maf self))) in
  total_std <~ lift (math_sqrt (mu2 - mu ^ 2 + std2)%Q) ;;
  n <~ lift (num_samples fixed_params) ;;
  traverse_rand (fun _ => random_normalvariate (VFloat mu) total_std) (range n).

(** [def normpdf(x, mean, sd)]: three positional parameters, no [self]. *)
Definition NormalModel_normpdf (args : list value) : result Q :=
  match args with
  | [x; mean; sd] =>
      sd <- to_float sd ;;
      let var := (sd ^ 2)%Q in
      let denom := pow_half (2 * math_pi * var)%Q in
      x <- to_float x ;;
      mean <- to_float mean ;;
      e <- div (- (x - mean) ^ 2)%Q (2 * var)%Q ;;
      let num := math_exp e in
      div num denom
  | _ => Raise TypeError
  end.

Definition NormalModel_joint_prob (self : NormalModel) (mu std maf : list Q)
    (pheno : Q) : result (list Q) :=
  geno_prob <- traverse
                 (fun '(m, s, f) =>
                    d <- call_method NormalModel_normpdf (VObject "NormalModel")
                           [VFloat pheno; VFloat m; VFloat s] ;;
                    Ok (d * f)%Q)
                 (zip3 mu std maf) ;;
  let geno_denom := sum geno_prob in
  traverse (fun g => div g geno_denom) geno_prob.

Definition NormalModel_generate_genotype (self : NormalModel)
    (fixed_params : FixedParams) (params_mu params_std : list Q)
    (phenotype : list Q) : rand (list Z * list Z) :=
  maf <~ get_maf fixed_params ;;
  drawn <~ traverse_rand
             (fun pheno =>
                prob_geno <~ lift (NormalModel_joint_prob self params_mu params_std maf pheno) ;;
                sample_categorical prob_geno)
             phenotype ;;
  ret (map fst drawn, map snd drawn).

Definition NormalModel_is_binary : bool := false.

(** *** Mean maps: classes GeneralMuMap and AdditiveMuMap *)

Inductive MuMap : Type :=
| GeneralMuMap (mu : list Q)
| AdditiveMuMap (beta0 : Q) (beta : list Q) (link : Q -> result Q).

(** The names bound at the module's top level: its imports, classes and
    functions. *)
Definition module_globals : list string :=
  [ "random"; "exp"; "log"; "sqrt"; "pi"; "sample_categorical"; "joint_maf";
    "FixedParams"; "BinomialModel"; "BinomialPhenoGenerator"; "BinomialParams";
    "NormalModel"; "NormalPhenoGenerator"; "NormalParams"; "GeneralMuMap";
    "AdditiveMuMap"; "get_pheno_generator"; "get_models"; "get_links";
    "get_link_names"; "get_link"; "get_mean_values"; "get_model_and_params" ]%string.

(** The builtins the module refers to. *)
Definition builtins : list string :=
  [ "sum"; "zip"; "len"; "int"; "float"; "list"; "range"; "ValueError" ]%string.

(** Reading a bare name inside a function body: the function's locals, then
    the module's globals, then the builtins; a [NameError] otherwise. *)
Definition load_name (locals : list (string * value)) (x : string) : result value :=
  match find (fun b => String.eqb (fst b) x) locals with
  | Some b => Ok (snd b)
  | None =>
      if existsb (String.eqb x) (module_globals ++ builtins) then
        Ok (if String.eqb x "pi" then VFloat math_pi else VObject x)
      else Raise NameError
  end.

(** [mu_map.map(variants)], dispatched on the mean map's class. *)
Definition MuMap_map (self : MuMap) (variants : list Z) : result value :=
  match self with
  | GeneralMuMap mu =>
      if existsb (Z.eqb 3) variants || negb (Nat.eqb (List.length variants) 2) then
        Ok VNone
      else
        v0 <- index variants 0 ;;
        v1 <- index variants 1 ;;
        m <- index mu (3 * v0 + v1) ;;
        Ok (VFloat m)
  | AdditiveMuMap _ beta link =>
      if existsb (Z.eqb 3) variants
         || negb (Nat.eqb (List.length variants) (List.length beta)) then
        Ok VNone
      else
        let locals := [ ("self", VObject "AdditiveMuMap"); ("variants", VObject "list") ]%string in
        b0 <- load_name locals "beta0" ;;
        eta <- add b0 (sum (map (fun '(v, b) => (inject_Z v * b)%Q) (zip variants beta))) ;;
        y <- link eta ;;
        Ok (VFloat y)
  end.

(** *** Prospective phenotype generators *)

Inductive PhenoGenerator : Type :=
| NormalPhenoGenerator (mu_map : MuMap) (dispersion : Q)
| BinomialPhenoGenerator (mu_map : MuMap).

Definition BinomialPhenoGenerator_generate_pheno (mu_map : MuMap)
    (variants : list Z) : rand value :=
  mu <~ lift (MuMap_map mu_map variants) ;;
  p <~ random ;;
  b <~ lift (le p mu) ;;
  ret (VInt (int_of_bool b)).

Definition NormalPhenoGenerator_generate_pheno (mu_map : MuMap) (dispersion : Q)
    (variants : list Z) : rand value :=
  mu <~ lift (MuMap_map mu_map variants) ;;
  y <~ random_normalvariate mu dispersion ;;
  ret (VFloat y).

(** [generator.generate_pheno(variants)], dispatched on the generator's class. *)
Definition generate_pheno (generator : PhenoGenerator) (variants : list Z)
  : rand value :=
  match generator with
  | NormalPhenoGenerator mu_map dispersion =>
      NormalPhenoGenerator_generate_pheno mu_map dispersion variants
  | BinomialPhenoGenerator mu_map =>
      BinomialPhenoGenerator_generate_pheno mu_map variants
  end.

(** *** Factories *)

Inductive Model : Type :=
| ANormalModel (m : NormalModel)
| ABinomialModel.

Inductive Params : Type :=
| NormalParams (mu std : list Q)
| BinomialParams (penetrance : list Q).

Definition get_pheno_generator (model : string) (mu_map : MuMap) (dispersion : Q)
  : result PhenoGenerator :=
  if String.eqb model "normal" then Ok (NormalPhenoGenerator mu_map dispersion)
  else if String.eqb model "binomial" then Ok (BinomialPhenoGenerator mu_map)
  else Raise (ValueError ("No such model " ++ model ++ ".")).

Definition get_models : list string := [ "normal"; "binomial" ]%string.

Definition get_model_and_params (model : string) (mu : list Q) (std : Q)
    (maf : list Q) : result (Model * Params) :=
  if String.eqb model "normal" then
    m <- NormalModel_init mu (replicate std 9) maf ;;
    Ok (ANormalModel m, NormalParams mu (replicate std 9))
  else if String.eqb model "binomial" then
    Ok (ABinomialModel, BinomialParams mu)
  else Raise (ValueError ("Unknown model " ++ model)).

(** *** Link functions and the mean table *)

(** [math.log] on its domain. *)
Variable log_pos : Q -> Q.

(** [math.log(x)]: a [ValueError] at and below zero. *)
Definition math_log (x : Q) : result Q :=
  if Qle_bool x 0 then Raise (ValueError "math domain error") else Ok (log_pos x).

(** The largest argument whose exponential is a float (about 709.78). *)
Variable exp_max : Q.

(** [math.exp(x)] as the links call it, on any float: an [OverflowError]
    above [exp_max]. *)
Definition math_exp_call (x : Q) : result Q :=
  if Qle_bool x exp_max then Ok (math_exp x) else Raise OverflowError.

(** The dict that [get_links()] builds, in insertion order. *)
Definition get_links : list (string * (Q -> result Q)) :=
  [ ("identity", fun x => Ok x);
    ("log", math_exp_call);
    ("exp", math_log);
    ("logc", fun x => e <- math_exp_call x ;; Ok (1 - e)%Q);
    ("odds", fun x => div x (1 + x)%Q);
    ("logodds", fun x => e <- math_exp_call (- x) ;; div 1 (1 + e)%Q) ]%string.

Definition get_link_names : list string := map fst get_links.

(** [get_links().get(link_str, None)]. *)
Definition get_link (link_str : string) : option (Q -> result Q) :=
  match find (fun kv => String.eqb (fst kv) link_str) get_links with
  | Some kv => Some (snd kv)
  | None => None
  end.

Definition get_mean_values (beta : list Q) (lf : Q -> result Q) : result (list Q) :=
  let P := [ [ 1; 0; 0; 0; 0; 0; 0; 0; 0 ];
             [ 1; 1; 0; 0; 0; 0; 0; 0; 0 ];
             [ 1; 0; 1; 0; 0; 0; 0; 0; 0 ];
             [ 1; 0; 0; 1; 0; 0; 0; 0; 0 ];
             [ 1; 1; 0; 1; 0; 1; 0; 0; 0 ];
             [ 1; 0; 1; 1; 0; 0; 1; 0; 0 ];
             [ 1; 0; 0; 0; 1; 0; 0; 0; 0 ];
             [ 1; 1; 0; 0; 1; 0; 0; 1; 0 ];
             [ 1; 0; 1; 0; 1; 0; 0; 0; 1 ] ] in
  traverse
    (fun row => lf (sum (map (fun '(r, b) => (inject_Z r * b)%Q) (zip row beta))))
    P.

(** ** What the specification asks of [joint_prob], in its own words *)

(** The weights of Bayes' rule for the binary model: the joint frequency times
    the penetrance for label 1, times its complement for label 0. *)
Definition bayes_weights (joint_freq penetrance : list Q) (phenotype_label : Z)
  : list Q :=
  if phenotype_label =? 1 then
    map (fun '(p, f) => (p * f)%Q) (zip penetrance joint_freq)
  else
    map (fun '(p, f) => ((1 - p) * f)%Q) (zip penetrance joint_freq).

(** The normalized weights. *)
Definition bayes_posterior (joint_freq penetrance : list Q) (phenotype_label : Z)
  : list Q :=
  let w := bayes_weights joint_freq penetrance phenotype_label in
  map (fun g => (g / sum w)%Q) w.


(** The weights the code forms: penetrance times joint frequency. *)
Definition code_weights (maf penetrance : list Q) : list Q :=
  map (fun '(p, f) => (p * f)%Q) (zip penetrance maf).

(** ** Properties *)

(** *** Runtime lemmas *)

Lemma sum_from (l : list Q) (a : Q) :
  (fold_left Qplus l a == a + sum l)%Q.
Proof.
  unfold sum. revert a.
  induction l as [|x l IH]; intros a; simpl.
  - ring.
  - rewrite (IH (a + x)%Q), (IH (0 + x)%Q). ring.
Qed.

Lemma sum_cons (x : Q) (l : list Q) : (sum (x :: l) == x + sum l)%Q.
Proof.
  unfold sum at 1. simpl. rewrite sum_from. ring.
Qed.

Lemma sum_scaled (l : list Q) (d : Q) :
  ~ (d == 0)%Q -> (sum (map (fun g => g / d) l) == sum l / d)%Q.
Proof.
  intros Hd. induction l as [|x l IH].
  - unfold sum. simpl. field. exact Hd.
  - simpl map. rewrite !sum_cons, IH. field. exact Hd.
Qed.

Lemma sum_all_zero (l : list Q) :
  Forall (fun g => g == 0)%Q l -> (sum l == 0)%Q.
Proof.
  induction 1 as [|x l Hx _ IH].
  - reflexivity.
  - rewrite sum_cons, Hx, IH. ring.
Qed.

Lemma sum_nonneg (l : list Q) :
  Forall (fun g => 0 <= g)%Q l -> (0 <= sum l)%Q.
Proof.
  induction 1 as [|x l Hx _ IH].
  - unfold sum. simpl. lra.
  - rewrite sum_cons. lra.
Qed.

Lemma sum_pos (l : list Q) :
  Forall (fun g => 0 <= g)%Q l -> Exists (fun g => ~ (g == 0))%Q l ->
  (0 < sum l)%Q.
Proof.
  intros Hall Hex. induction Hall as [|x l Hx Hl IH].
  - inversion Hex.
  - rewrite sum_cons. pose proof (sum_nonneg l Hl) as Hs.
    inversion Hex as [? ? Hnz | ? ? Hrest]; subst.
    + lra.
    + specialize (IH Hrest). lra.
Qed.

Lemma traverse_div_ok (l : list Q) (d : Q) :
  ~ (d == 0)%Q ->
  traverse (fun g => div g d) l = Ok (map (fun g => (g / d)%Q) l).
Proof.
  intros Hd. unfold div.
  destruct (Qeq_bool d 0) eqn:E.
  - apply Qeq_bool_eq in E. contradiction.
  - induction l as [|x l IH]; simpl.
    + reflexivity.
    + rewrite IH. reflexivity.
Qed.

Lemma traverse_div_zero (x : Q) (l : list Q) (d : Q) :
  (d == 0)%Q ->
  traverse (fun g => div g d) (x :: l) = Raise ZeroDivisionError.
Proof.
  intros Hd. simpl. unfold div.
  rewrite (Qeq_eq_bool _ _ Hd). reflexivity.
Qed.

Lemma index_0 {A : Type} (x : A) (l : list A) : index (x :: l) 0 = Ok x.
Proof.
  unfold index.
  replace (0 <? 0) with false by reflexivity.
  replace (0 <? 0) with false by reflexivity.
  destruct (Z.of_nat (List.length (x :: l)) <=? 0) eqn:E.
  - apply Z.leb_le in E. simpl List.length in E. lia.
  - reflexivity.
Qed.

Lemma index_1 {A : Type} (x y : A) (l : list A) : index (x :: y :: l) 1 = Ok y.
Proof.
  unfold index.
  replace (1 <? 0) with false by reflexivity.
  destruct (Z.of_nat (List.length (x :: y :: l)) <=? 1) eqn:E.
  - apply Z.leb_le in E. simpl List.length in E. lia.
  - reflexivity.
Qed.

(** *** The binary model's [joint_prob] *)

(** The label is not read. *)
Lemma BinomialModel_joint_prob_label_unread (maf penetrance : list Q) (l l' : Z) :
  BinomialModel_joint_prob maf penetrance l = BinomialModel_joint_prob maf penetrance l'.
Proof. reflexivity. Qed.

(** For label 1 the code computes the posterior of Bayes' rule. *)
Lemma BinomialModel_joint_prob_case (maf penetrance : list Q) :
  ~ (sum (code_weights maf penetrance) == 0)%Q ->
  BinomialModel_joint_prob maf penetrance 1 = Ok (bayes_posterior maf penetrance 1).
Proof.
  intros Hd. unfold BinomialModel_joint_prob, bayes_posterior, bayes_weights.
  simpl (1 =? 1). apply traverse_div_ok. exact Hd.
Qed.

(** With non-negative weights that are not all zero the code returns a vector
    of the weights' length that sums to 1, whatever the label. *)
Lemma BinomialModel_joint_prob_sums_to_one (maf penetrance : list Q) (l : Z) :
  Forall (fun g => 0 <= g)%Q (code_weights maf penetrance) ->
  Exists (fun g => ~ (g == 0))%Q (code_weights maf penetrance) ->
  exists v, BinomialModel_joint_prob maf penetrance l = Ok v
            /\ List.length v = List.length (code_weights maf penetrance)
            /\ (sum v == 1)%Q.
Proof.
  intros Hall Hex.
  pose proof (sum_pos _ Hall Hex) as Hpos.
  assert (Hd : ~ (sum (code_weights maf penetrance) == 0)%Q) by lra.
  exists (map (fun g => (g / sum (code_weights maf penetrance))%Q)
            (code_weights maf penetrance)).
  split; [| split].
  - unfold BinomialModel_joint_prob. apply traverse_div_ok. exact Hd.
  - apply length_map.
  - rewrite sum_scaled by exact Hd. field. exact Hd.
Qed.

(** When every weight the code forms is zero the division raises. *)
Lemma BinomialModel_joint_prob_degenerate (maf penetrance : list Q) (l : Z) :
  code_weights maf penetrance <> [] ->
  Forall (fun g => g == 0)%Q (code_weights maf penetrance) ->
  BinomialModel_joint_prob maf penetrance l = Raise ZeroDivisionError.
Proof.
  intros Hne Hz. unfold BinomialModel_joint_prob.
  fold (code_weights maf penetrance).
  pose proof (sum_all_zero _ Hz) as Hs.
  destruct (code_weights maf penetrance) as [|x t] eqn:E.
  - contradiction.
  - apply traverse_div_zero. exact Hs.
Qed.

(** *** The continuous model's [joint_prob] *)

(** [self.normpdf(pheno, m, s)] binds four positional arguments to a function
    of three parameters. *)
Lemma normpdf_bound_call (self a b c : value) :
  call_method NormalModel_normpdf self [a; b; c] = Raise TypeError.
Proof. reflexivity. Qed.

Lemma NormalModel_joint_prob_nonempty (self : NormalModel)
    (m s f : Q) (mu std maf : list Q) (pheno : Q) :
  NormalModel_joint_prob self (m :: mu) (s :: std) (f :: maf) pheno = Raise TypeError.
Proof. reflexivity. Qed.

(** C2: on 9-entry means, std-devs and joint frequencies the continuous
    model's [joint_prob] does not return the normalized density-weighted
    vector: the call of [normpdf] through [self] raises a [TypeError] at the
    first state. *)
Theorem NormalModel_joint_prob_raises (self : NormalModel)
    (mu std maf : list Q) (pheno : Q) :
  List.length mu = 9%nat -> List.length std = 9%nat -> List.length maf = 9%nat ->
  NormalModel_joint_prob self mu std maf pheno = Raise TypeError.
Proof.
  intros Hmu Hstd Hmaf.
  destruct mu as [|m mu]; [discriminate|].
  destruct std as [|s std]; [discriminate|].
  destruct maf as [|f maf]; [discriminate|].
  apply NormalModel_joint_prob_nonempty.
Qed.

(** *** Mean maps and phenotype generators *)

Lemma load_beta0 : 
  load_name [ ("self", VObject "AdditiveMuMap"); ("variants", VObject "list") ]%string
    "beta0" = Raise NameError.
Proof. reflexivity. Qed.

(** The additive mean map on every input: [None] behind the guard, and past
    it the read of the bare name [beta0] raises. *)
Lemma AdditiveMuMap_map_cases (beta0 : Q) (beta : list Q) (link : Q -> result Q)
    (variants : list Z) :
  MuMap_map (AdditiveMuMap beta0 beta link) variants =
    if existsb (Z.eqb 3) variants
       || negb (Nat.eqb (List.length variants) (List.length beta))
    then Ok VNone else Raise NameError.
Proof.
  unfold MuMap_map.
  destruct (existsb (Z.eqb 3) variants
            || negb (Nat.eqb (List.length variants) (List.length beta)));
    reflexivity.
Qed.

(** The lookup mean map is undefined on an input holding the sentinel and on
    an input that is not a pair. *)
Lemma GeneralMuMap_map_undefined (mu : list Q) (variants : list Z) :
  In 3 variants \/ List.length variants <> 2%nat ->
  MuMap_map (GeneralMuMap mu) variants = Ok VNone.
Proof.
  intros H. unfold MuMap_map.
  destruct (existsb (Z.eqb 3) variants) eqn:E; [reflexivity|].
  destruct (Nat.eqb (List.length variants) 2) eqn:L; [|reflexivity].
  exfalso. destruct H as [H | H].
  - assert (existsb (Z.eqb 3) variants = true) as E'.
    { apply existsb_exists. exists 3. split; [exact H | apply Z.eqb_refl]. }
    congruence.
  - apply Nat.eqb_eq in L. contradiction.
Qed.

(** C3, as the code has it: when the mean map returns [None] neither
    generator returns [None]; the binary generator raises a [TypeError] at
    the comparison of its draw with [None], the continuous one inside
    [random.normalvariate] at [mu + z * sigma]. *)
Theorem generate_pheno_undefined_mean_raises (mu_map : MuMap) (dispersion : Q)
    (variants : list Z) (s : rng) :
  MuMap_map mu_map variants = Ok VNone ->
  fst (generate_pheno (BinomialPhenoGenerator mu_map) variants s) = Raise TypeError
  /\ fst (generate_pheno (NormalPhenoGenerator mu_map dispersion) variants s)
     = Raise TypeError.
Proof.
  intros Hmu. split.
  - unfold generate_pheno, BinomialPhenoGenerator_generate_pheno, bind_rand, lift, random.
    rewrite Hmu. destruct (random_random s) as [u s']. reflexivity.
  - unfold generate_pheno, NormalPhenoGenerator_generate_pheno, bind_rand, lift,
      random_normalvariate.
    rewrite Hmu. destruct (normal_deviate s) as [z s']. reflexivity.
Qed.

(** *** Factories *)

(** C6, as the code has it: a key other than "normal" and "binomial" makes
    both factories raise a [ValueError] naming the key, whatever the other
    arguments; "normal" selects the continuous generator and, when the joint
    table of the marginals is computed, the continuous model with the std-dev
    repeated nine times; "binomial" selects the binary generator and model,
    whatever the other arguments. *)
Theorem factories_dispatch (model : string) (mu_map : MuMap) (dispersion : Q)
    (mu : list Q) (std : Q) (maf : list Q) :
  (model <> "normal"%string -> model <> "binomial"%string ->
   get_pheno_generator model mu_map dispersion
     = Raise (ValueError ("No such model " ++ model ++ "."))
   /\ get_model_and_params model mu std maf
     = Raise (ValueError ("Unknown model " ++ model)))
  /\ get_pheno_generator "normal" mu_map dispersion
     = Ok (NormalPhenoGenerator mu_map dispersion)
  /\ (forall joint, joint_maf maf None = Ok joint ->
      get_model_and_params "normal" mu std maf
      = Ok (ANormalModel {| nm_mu := mu; nm_std := repeat std 9; nm_maf := joint |},
            NormalParams mu (repeat std 9)))
  /\ get_pheno_generator "binomial" mu_map dispersion
     = Ok (BinomialPhenoGenerator mu_map)
  /\ get_model_and_params "binomial" mu std maf
     = Ok (ABinomialModel, BinomialParams mu).
Proof.
  split; [| split; [| split; [| split]]].
  - intros Hn Hb.
    apply String.eqb_neq in Hn. apply String.eqb_neq in Hb.
    unfold get_pheno_generator, get_model_and_params.
    rewrite Hn, Hb. split; reflexivity.
  - reflexivity.
  - intros joint Hj.
    unfold get_model_and_params, NormalModel_init. simpl String.eqb.
    rewrite Hj. reflexivity.
  - reflexivity.
  - reflexivity.
Qed.

(** *** The dataset parameters *)

(** C8, as the code has it: on a sample-size pair (cases, controls)
    [num_samples] and [num_cases] both return the first entry and
    [num_controls] returns the second. *)
Theorem accessors_read_sample_size (maf : list Q) (ld : option Q) (sample_maf : bool)
    (cases controls : Z) (rest : list Z) :
  let fp := {| fp_maf := maf; fp_ld := ld;
               fp_sample_size := cases :: controls :: rest;
               fp_sample_maf := sample_maf |} in
  num_samples fp = Ok cases
  /\ num_cases fp = Ok cases
  /\ num_controls fp = Ok controls.
Proof.
  intros fp. unfold num_samples, num_cases, num_controls, fp. cbn [fp_sample_size].
  rewrite index_0, index_1. auto.
Qed.

(** An affine image [lo + (hi - lo) * u] of a draw [u] in [[0, 1)] lies
    between [lo] and [hi]. *)
Lemma affine_within_bounds (lo hi u : Q) :
  (lo <= hi)%Q -> (0 <= u)%Q -> (u < 1)%Q ->
  (lo <= lo + (hi - lo) * u)%Q /\ (lo + (hi - lo) * u <= hi)%Q.
Proof.
  intros Hb H0 H1.
  assert (0 <= (hi - lo) * u)%Q as Hm by (apply Qmult_le_0_compat; lra).
  assert (0 <= (hi - lo) * (1 - u))%Q as Hn by (apply Qmult_le_0_compat; lra).
  split; [lra|].
  setoid_replace hi with (lo + (hi - lo) * u + (hi - lo) * (1 - u))%Q at 2 by ring.
  lra.
Qed.

(** The affine image falls in a sub-interval [[a, b]] exactly when the draw
    falls in the interval rescaled to the unit interval. *)
Lemma affine_interval (lo hi u a b : Q) :
  (lo < hi)%Q ->
  ((a <= lo + (hi - lo) * u)%Q /\ (lo + (hi - lo) * u <= b)%Q)
  <-> (((a - lo) / (hi - lo) <= u)%Q /\ (u <= (b - lo) / (hi - lo))%Q).
Proof.
  intros Hlt.
  assert (0 < hi - lo)%Q as Hw by lra.
  assert (forall c : Q, (c - lo == (c - lo) / (hi - lo) * (hi - lo))%Q) as Hc.
  { intros c. field. lra. }
  split; intros [H1 H2]; split.
  - apply (Qmult_le_r _ _ (hi - lo) Hw). rewrite <- Hc. lra.
  - apply (Qmult_le_r _ _ (hi - lo) Hw). rewrite <- Hc. lra.
  - apply (Qmult_le_r _ _ (hi - lo) Hw) in H1. rewrite <- Hc in H1. lra.
  - apply (Qmult_le_r _ _ (hi - lo) Hw) in H2. rewrite <- Hc in H2. lra.
Qed.

(** C9: with sampling enabled and bounds [lo <= hi], [get_maf] passes to the
    joint-frequency calculator the two marginals [lo + (hi - lo) * u1] and
    [lo + (hi - lo) * u2], where [u1] and [u2] are the next two draws of the
    random source; both lie within [[lo, hi]] from every state of the source,
    each is a function of its own draw alone, and each falls in a
    sub-interval exactly when its draw falls in the rescaled sub-interval of
    the unit interval (uniformity within the bounds). *)
Theorem get_maf_sampled_marginals (lo hi : Q) (rest : list Q) (ld : option Q)
    (sample_size : list Z) (s : rng) :
  (lo <= hi)%Q ->
  let fp := {| fp_maf := lo :: hi :: rest; fp_ld := ld;
               fp_sample_size := sample_size; fp_sample_maf := true |} in
  let u1 := fst (random_random s) in
  let s1 := snd (random_random s) in
  let u2 := fst (random_random s1) in
  let s2 := snd (random_random s1) in
  let m1 := (lo + (hi - lo) * u1)%Q in
  let m2 := (lo + (hi - lo) * u2)%Q in
  get_maf fp s = (joint_maf [m1; m2] ld, s2)
  /\ ((lo <= m1)%Q /\ (m1 <= hi)%Q)
  /\ ((lo <= m2)%Q /\ (m2 <= hi)%Q)
  /\ ((lo < hi)%Q -> forall a b : Q,
        (((a <= m1)%Q /\ (m1 <= b)%Q)
         <-> (((a - lo) / (hi - lo) <= u1)%Q /\ (u1 <= (b - lo) / (hi - lo))%Q))
        /\ (((a <= m2)%Q /\ (m2 <= b)%Q)
         <-> (((a - lo) / (hi - lo) <= u2)%Q /\ (u2 <= (b - lo) / (hi - lo))%Q))).
Proof.
  intros Hb fp u1 s1 u2 s2 m1 m2.
  split; [| split; [| split]].
  - unfold get_maf, fp. cbn [fp_sample_maf fp_maf fp_ld negb].
    unfold bind_rand, lift, random.
    rewrite index_0, index_1.
    unfold m1, m2, u1, u2, s2, s1.
    destruct (random_random s) as [a sa]. simpl.
    destruct (random_random sa) as [b sb]. reflexivity.
  - apply affine_within_bounds; [exact Hb | apply random_random_range ..].
  - apply affine_within_bounds; [exact Hb | apply random_random_range ..].
  - intros Hlt a b. split; apply affine_interval; exact Hlt.
Qed.

(** C10: the continuous model's weights are the joint table of the
    constructor's marginals under no LD, and [generate_phenotype] takes from
    the dataset parameters the sample count alone: from the same state of the
    random source, two parameter sets with the same sample count give the same
    phenotypes (and the same final state), whatever their LD strength and
    allele-frequency settings. *)
Theorem NormalModel_generate_phenotype_reads_sample_count
    (mu std maf : list Q) (fp1 fp2 : FixedParams) (s : rng) :
  num_samples fp1 = num_samples fp2 ->
  (forall self, NormalModel_init mu std maf = Ok self ->
     joint_maf maf None = Ok (nm_maf self)
     /\ nm_mu self = mu /\ nm_std self = std)
  /\ (forall self, NormalModel_generate_phenotype self fp1 s
                   = NormalModel_generate_phenotype self fp2 s).
Proof.
  intros Hn. split.
  - intros self. unfold NormalModel_init.
    destruct (joint_maf maf None) as [joint | e]; simpl; [| discriminate].
    intros H. injection H as <-. auto.
  - intros self. unfold NormalModel_generate_phenotype, bind_rand, lift.
    rewrite Hn. reflexivity.
Qed.

(** *** Further properties of the module *)

(** Indexing inside the bounds reads the list. *)
Lemma index_nth_error {A : Type} (l : list A) (i : Z) (x : A) :
  0 <= i -> nth_error l (Z.to_nat i) = Some x -> index l i = Ok x.
Proof.
  intros Hi Hn. unfold index.
  assert (Z.to_nat i < List.length l)%nat as Hlt
    by (apply nth_error_Some; congruence).
  destruct (i <? 0) eqn:E; [apply Z.ltb_lt in E; lia |].
  rewrite E.
  destruct (Z.of_nat (List.length l) <=? i) eqn:E'; [apply Z.leb_le in E'; lia |].
  simpl. rewrite Hn. reflexivity.
Qed.

(** Indexing at or past the length raises. *)
Lemma index_out_of_range {A : Type} (l : list A) (i : Z) :
  Z.of_nat (List.length l) <= i -> index l i = Raise IndexError.
Proof.
  intros Hi. unfold index.
  destruct (i <? 0) eqn:E; [apply Z.ltb_lt in E; lia |].
  rewrite E.
  destruct (Z.of_nat (List.length l) <=? i) eqn:E'; [reflexivity |].
  apply Z.leb_gt in E'. lia.
Qed.

(** X1: with sampling enabled and fewer than two configured bounds [get_maf]
    raises an [IndexError] and leaves the random source as it was. *)
Theorem get_maf_sampled_short_bounds (maf : list Q) (ld : option Q)
    (sample_size : list Z) (s : rng) :
  (List.length maf < 2)%nat ->
  get_maf {| fp_maf := maf; fp_ld := ld; fp_sample_size := sample_size;
             fp_sample_maf := true |} s = (Raise IndexError, s).
Proof.
  intros Hlen. unfold get_maf. cbn [fp_sample_maf fp_maf fp_ld negb].
  unfold bind_rand, lift.
  destruct maf as [| x [| y t]].
  - reflexivity.
  - rewrite index_0. reflexivity.
  - simpl in Hlen. lia.
Qed.

Lemma affine_within_reversed_bounds (lo hi u : Q) :
  (hi <= lo)%Q -> (0 <= u)%Q -> (u < 1)%Q ->
  (hi <= lo + (hi - lo) * u)%Q /\ (lo + (hi - lo) * u <= lo)%Q.
Proof.
  intros Hb H0 H1.
  assert (0 <= (lo - hi) * u)%Q as Hm by (apply Qmult_le_0_compat; lra).
  assert (0 <= (lo - hi) * (1 - u))%Q as Hn by (apply Qmult_le_0_compat; lra).
  assert ((hi - lo) * u == - ((lo - hi) * u))%Q as E by ring.
  rewrite E. split; [| lra].
  setoid_replace hi with (lo - (lo - hi) * u - (lo - hi) * (1 - u))%Q at 1 by ring.
  lra.
Qed.

(** X2: bounds given in decreasing order are not rejected: with sampling
    enabled and [hi <= lo] both marginals passed to the joint-frequency
    calculator lie between [hi] and [lo], and two draws are consumed. *)
Theorem get_maf_sampled_reversed_bounds (lo hi : Q) (rest : list Q)
    (ld : option Q) (sample_size : list Z) (s : rng) :
  (hi <= lo)%Q ->
  let fp := {| fp_maf := lo :: hi :: rest; fp_ld := ld;
               fp_sample_size := sample_size; fp_sample_maf := true |} in
  exists m1 m2,
    get_maf fp s
    = (joint_maf [m1; m2] ld, snd (random_random (snd (random_random s))))
    /\ ((hi <= m1)%Q /\ (m1 <= lo)%Q)
    /\ ((hi <= m2)%Q /\ (m2 <= lo)%Q).
Proof.
  intros Hb fp.
  exists (lo + (hi - lo) * fst (random_random s))%Q.
  exists (lo + (hi - lo) * fst (random_random (snd (random_random s))))%Q.
  split; [| split].
  - unfold get_maf, fp. cbn [fp_sample_maf fp_maf fp_ld negb].
    unfold bind_rand, lift, random.
    rewrite index_0, index_1.
    destruct (random_random s) as [a sa]. simpl.
    destruct (random_random sa) as [b sb]. reflexivity.
  - apply affine_within_reversed_bounds; [exact Hb | apply random_random_range ..].
  - apply affine_within_reversed_bounds; [exact Hb | apply random_random_range ..].
Qed.

(** X3: the binary model's phenotype list holds one label per configured
    individual, the cases' ones before the controls' zeros; a negative count
    contributes no label. *)
Theorem BinomialModel_generate_phenotype_layout (maf : list Q) (ld : option Q)
    (sample_maf : bool) (cases controls : Z) (rest : list Z) :
  let fp := {| fp_maf := maf; fp_ld := ld;
               fp_sample_size := cases :: controls :: rest;
               fp_sample_maf := sample_maf |} in
  exists labels,
    BinomialModel_generate_phenotype fp = Ok labels
    /\ Z.of_nat (List.length labels) = Z.max 0 cases + Z.max 0 controls
    /\ forall i, 0 <= i < Z.max 0 cases + Z.max 0 controls ->
         index labels i = Ok (if i <? cases then 1 else 0).
Proof.
  intros fp.
  exists (repeat 1 (Z.to_nat cases) ++ repeat 0 (Z.to_nat controls)).
  split; [| split].
  - unfold BinomialModel_generate_phenotype, num_cases, num_controls, fp.
    cbn [fp_sample_size]. rewrite index_0, index_1. reflexivity.
  - rewrite length_app, !repeat_length. lia.
  - intros i Hi. apply index_nth_error; [lia |].
    destruct (i <? cases) eqn:E.
    + apply Z.ltb_lt in E.
      rewrite nth_error_app1 by (rewrite repeat_length; lia).
      apply nth_error_repeat. lia.
    + apply Z.ltb_ge in E.
      rewrite nth_error_app2 by (rewrite repeat_length; lia).
      apply nth_error_repeat. rewrite repeat_length. lia.
Qed.

(** X4: a sample size with fewer than two entries makes the binary model's
    [generate_phenotype] raise an [IndexError], although one entry is enough
    for [num_samples]. *)
Theorem BinomialModel_generate_phenotype_short_sample_size (maf : list Q)
    (ld : option Q) (sample_maf : bool) (sample_size : list Z) :
  (List.length sample_size < 2)%nat ->
  let fp := {| fp_maf := maf; fp_ld := ld; fp_sample_size := sample_size;
               fp_sample_maf := sample_maf |} in
  BinomialModel_generate_phenotype fp = Raise IndexError
  /\ (forall n, sample_size = [n] -> num_samples fp = Ok n).
Proof.
  intros Hlen fp. split.
  - unfold BinomialModel_generate_phenotype, num_cases, num_controls, fp.
    cbn [fp_sample_size].
    destruct sample_size as [| x [| y t]].
    + reflexivity.
    + rewrite index_0. reflexivity.
    + simpl in Hlen. lia.
  - intros n ->. unfold num_samples, fp. cbn [fp_sample_size]. apply index_0.
Qed.

(** *** More on the binary model *)

Lemma code_weights_nonneg (maf penetrance : list Q) :
  Forall (fun f => 0 <= f)%Q maf -> Forall (fun p => 0 <= p)%Q penetrance ->
  Forall (fun g => 0 <= g)%Q (code_weights maf penetrance).
Proof.
  intros Hm Hp. revert maf Hm.
  induction Hp as [| p pen Hp0 _ IH]; intros maf Hm.
  - constructor.
  - destruct Hm as [| f maf' Hf Hm']; [constructor |].
    unfold code_weights. simpl. constructor.
    + apply Qmult_le_0_compat; assumption.
    + apply IH. exact Hm'.
Qed.

Lemma le_sum_of_nonneg (l : list Q) :
  Forall (fun g => 0 <= g)%Q l -> Forall (fun g => g <= sum l)%Q l.
Proof.
  induction 1 as [| x l Hx Hl IH].
  - constructor.
  - pose proof (sum_nonneg l Hl) as Hs. constructor.
    + rewrite sum_cons. lra.
    + apply Forall_impl with (2 := IH). intros g Hg. rewrite sum_cons. lra.
Qed.

Lemma traverse_div_inv (w v : list Q) (d : Q) :
  traverse (fun g => div g d) w = Ok v ->
  v = map (fun g => (g / d)%Q) w /\ (w <> [] -> ~ (d == 0)%Q).
Proof.
  intros H. destruct (Qeq_bool d 0) eqn:E.
  - apply Qeq_bool_eq in E. destruct w as [| x w].
    + simpl in H. injection H as <-. split; [reflexivity | congruence].
    + rewrite (traverse_div_zero x w d E) in H. discriminate H.
  - assert (Hd : ~ (d == 0)%Q).
    { intros Hd. apply Qeq_eq_bool in Hd. congruence. }
    rewrite (traverse_div_ok w d Hd) in H. injection H as <-.
    split; [reflexivity | intros _; exact Hd].
Qed.

Lemma combine_weights_nonneg (maf penetrance : list Q) :
  Forall (fun f => 0 <= f /\ f <= 1)%Q maf ->
  Forall (fun p => 0 <= p /\ p <= 1)%Q penetrance ->
  Forall (fun g => 0 <= g)%Q (code_weights maf penetrance).
Proof.
  intros Hm Hp. apply code_weights_nonneg.
  - apply Forall_impl with (2 := Hm). intros f [H _]. exact H.
  - apply Forall_impl with (2 := Hp). intros f [H _]. exact H.
Qed.

(** X5: whenever [joint_prob] returns on joint frequencies and penetrances
    in [[0, 1]], it returns one entry per zipped state, every entry between 0
    and 1, and, unless the vector is empty, entries that sum to 1 in exact
    arithmetic. *)
Theorem BinomialModel_joint_prob_distribution (maf penetrance : list Q) (l : Z)
    (v : list Q) :
  Forall (fun f => 0 <= f /\ f <= 1)%Q maf ->
  Forall (fun p => 0 <= p /\ p <= 1)%Q penetrance ->
  BinomialModel_joint_prob maf penetrance l = Ok v ->
  List.length v = Nat.min (List.length penetrance) (List.length maf)
  /\ Forall (fun g => 0 <= g /\ g <= 1)%Q v
  /\ (v <> [] -> (sum v == 1)%Q).
Proof.
  intros Hm Hp Hv.
  pose proof (combine_weights_nonneg _ _ Hm Hp) as Hall.
  unfold BinomialModel_joint_prob in Hv. fold (code_weights maf penetrance) in Hv.
  apply traverse_div_inv in Hv. destruct Hv as [-> Hd].
  split; [| split].
  - rewrite length_map. unfold code_weights, zip.
    rewrite length_map. apply length_combine.
  - destruct (code_weights maf penetrance) as [| g0 w0] eqn:Ew; [constructor |].
    rewrite <- Ew in *.
    assert (Hnz : ~ (sum (code_weights maf penetrance) == 0)%Q)
      by (apply Hd; rewrite Ew; discriminate).
    pose proof (sum_nonneg _ Hall) as Hge.
    assert (Hpos : (0 < sum (code_weights maf penetrance))%Q) by lra.
    apply Forall_map.
    pose proof (le_sum_of_nonneg _ Hall) as Hle.
    set (d := sum (code_weights maf penetrance)) in *.
    clearbody d. clear Hd Hnz Hge Ew.
    induction Hall as [| g w Hg Hw IH]; [constructor |].
    inversion Hle as [| ? ? Hgd Hwd]; subst.
    constructor; [| apply IH; exact Hwd].
    split.
    + apply Qle_shift_div_l; [exact Hpos | lra].
    + apply Qle_shift_div_r; [exact Hpos | lra].
  - intros Hne.
    assert (Hw : code_weights maf penetrance <> [])
      by (intros E; apply Hne; rewrite E; reflexivity).
    specialize (Hd Hw).
    rewrite sum_scaled by exact Hd. field. exact Hd.
Qed.




Lemma traverse_rand_length {A B : Type} (f : A -> rand B) (l : list A)
    (s s' : rng) (ys : list B) :
  traverse_rand f l s = (Ok ys, s') -> List.length ys = List.length l.
Proof.
  revert s s' ys. induction l as [| x t IH]; intros s s' ys H.
  - unfold traverse_rand, ret in H. injection H as <- _. reflexivity.
  - simpl in H. unfold bind_rand at 1 in H.
    destruct (f x s) as [[y | e] s1]; [| discriminate].
    unfold bind_rand at 1 in H.
    destruct (traverse_rand f t s1) as [[ys' | e] s2] eqn:E; [| discriminate].
    unfold ret in H. injection H as <- _.
    simpl. f_equal. exact (IH _ _ _ E).
Qed.

Lemma traverse_rand_same {A B : Type} (f : A -> rand B) (h : rand B)
    (l1 l2 : list A) :
  Forall (fun x => f x = h) l1 -> Forall (fun x => f x = h) l2 ->
  List.length l1 = List.length l2 ->
  traverse_rand f l1 = traverse_rand f l2.
Proof.
  intros H1. revert l2. induction H1 as [| x t Hx _ IH]; intros l2 H2 Hlen.
  - destruct l2; [reflexivity | discriminate].
  - destruct H2 as [| y t2 Hy H2]; [discriminate |].
    simpl. rewrite Hx, Hy, (IH t2 H2) by (simpl in Hlen; lia). reflexivity.
Qed.

(** One drawn state per visited individual. *)
Lemma BinomialModel_generate_genotype_length_of_result (fixed_params : FixedParams)
    (penetrance : list Q) (phenotype : list Z) (s s' : rng)
    (snp1_list snp2_list : list Z) :
  BinomialModel_generate_genotype fixed_params penetrance phenotype s
    = (Ok (snp1_list, snp2_list), s') ->
  List.length snp1_list = List.length phenotype
  /\ List.length snp2_list = List.length phenotype.
Proof.
  unfold BinomialModel_generate_genotype. intros H.
  unfold bind_rand at 1 in H.
  destruct (get_maf fixed_params s) as [[maf | e] s1]; [| discriminate].
  unfold bind_rand at 1, lift at 1 in H.
  destruct (BinomialModel_joint_prob maf penetrance 1) as [p1 | e]; [| discriminate].
  unfold bind_rand at 1, lift at 1 in H.
  destruct (BinomialModel_joint_prob maf penetrance 0) as [p0 | e]; [| discriminate].
  unfold bind_rand at 1 in H.
  match type of H with
  | context [traverse_rand ?f phenotype s1] =>
      destruct (traverse_rand f phenotype s1) as [[drawn | e] s2] eqn:E;
        [| discriminate]
  end.
  unfold ret in H. injection H as <- <- _.
  apply traverse_rand_length in E.
  rewrite !length_map. auto.
Qed.

(** X7: when the binary model's [generate_genotype] returns, its two
    sequences hold one state per individual of the phenotype list. *)
Theorem BinomialModel_generate_genotype_lengths (fixed_params : FixedParams)
    (penetrance : list Q) (phenotype : list Z) (s s' : rng)
    (snp1_list snp2_list : list Z) :
  BinomialModel_generate_genotype fixed_params penetrance phenotype s
    = (Ok (snp1_list, snp2_list), s') ->
  List.length snp1_list = List.length phenotype
  /\ List.length snp2_list = List.length phenotype.
Proof.
  apply BinomialModel_generate_genotype_length_of_result.
Qed.

(** X8: the genotypes drawn by the binary model do not depend on the labels:
    two phenotype lists of the same length with labels in {0, 1} give the same
    result from the same state of the random source. *)
Theorem BinomialModel_generate_genotype_label_blind (fixed_params : FixedParams)
    (penetrance : list Q) (phenotype phenotype' : list Z) (s : rng) :
  List.length phenotype = List.length phenotype' ->
  Forall (fun l => l = 0 \/ l = 1) phenotype ->
  Forall (fun l => l = 0 \/ l = 1) phenotype' ->
  BinomialModel_generate_genotype fixed_params penetrance phenotype s
  = BinomialModel_generate_genotype fixed_params penetrance phenotype' s.
Proof.
  intros Hlen H1 H2. unfold BinomialModel_generate_genotype, bind_rand, lift.
  destruct (get_maf fixed_params s) as [[maf | e] s1]; [| reflexivity].
  rewrite (BinomialModel_joint_prob_label_unread maf penetrance 0 1).
  destruct (BinomialModel_joint_prob maf penetrance 1) as [p | e]; [| reflexivity].
  match goal with
  | |- context [traverse_rand ?f phenotype s1] =>
      rewrite (traverse_rand_same f (f 0) phenotype phenotype')
  end.
  - reflexivity.
  - apply Forall_impl with (2 := H1). intros l [-> | ->]; reflexivity.
  - apply Forall_impl with (2 := H2). intros l [-> | ->]; reflexivity.
  - exact Hlen.
Qed.

(** X9: the posteriors are computed before any individual is visited: when
    every weight is zero the binary model's [generate_genotype] raises a
    [ZeroDivisionError] whatever the phenotype list, the empty one included. *)
Theorem BinomialModel_generate_genotype_degenerate (fixed_params : FixedParams)
    (maf penetrance : list Q) (phenotype : list Z) (s s' : rng) :
  get_maf fixed_params s = (Ok maf, s') ->
  code_weights maf penetrance <> [] ->
  Forall (fun g => g == 0)%Q (code_weights maf penetrance) ->
  BinomialModel_generate_genotype fixed_params penetrance phenotype s
  = (Raise ZeroDivisionError, s').
Proof.
  intros Hmaf Hne Hz. unfold BinomialModel_generate_genotype.
  unfold bind_rand at 1. rewrite Hmaf.
  unfold bind_rand at 1, lift at 1.
  rewrite (BinomialModel_joint_prob_degenerate maf penetrance 1 Hne Hz).
  reflexivity.
Qed.

(** *** More on the continuous model *)

(** X10: whenever the continuous model's [generate_phenotype] returns, the
    sample count was read and the list holds exactly that many phenotypes
    (none when the count is negative). *)
Theorem NormalModel_generate_phenotype_count (self : NormalModel)
    (fixed_params : FixedParams) (s s' : rng) (phenotype : list Q) :
  NormalModel_generate_phenotype self fixed_params s = (Ok phenotype, s') ->
  exists n,
    num_samples fixed_params = Ok n
    /\ Z.of_nat (List.length phenotype) = Z.max 0 n.
Proof.
  unfold NormalModel_generate_phenotype. intros H.
  unfold bind_rand at 1, lift at 1 in H.
  match type of H with
  | context [math_sqrt ?x] => destruct (math_sqrt x) as [sd | e]; [| discriminate]
  end.
  unfold bind_rand at 1, lift at 1 in H.
  destruct (num_samples fixed_params) as [n | e]; [| discriminate].
  exists n. split; [reflexivity |].
  apply traverse_rand_length in H. rewrite H.
  unfold range. rewrite length_map, length_seq. lia.
Qed.

(** X11: the continuous model's [generate_genotype] reads the joint table and
    then fails at the first individual, with the [TypeError] of [joint_prob];
    only on an empty phenotype list does it return (two empty sequences). *)
Theorem NormalModel_generate_genotype_raises (self : NormalModel)
    (fixed_params : FixedParams) (m sd f pheno : Q)
    (mu std maf phenotype : list Q) (s s' : rng) :
  get_maf fixed_params s = (Ok (f :: maf), s') ->
  NormalModel_generate_genotype self fixed_params (m :: mu) (sd :: std)
    (pheno :: phenotype) s = (Raise TypeError, s')
  /\ NormalModel_generate_genotype self fixed_params (m :: mu) (sd :: std) [] s
     = (Ok ([], []), s').
Proof.
  intros Hmaf. unfold NormalModel_generate_genotype. split.
  - unfold bind_rand at 1. rewrite Hmaf. reflexivity.
  - unfold bind_rand at 1. rewrite Hmaf. reflexivity.
Qed.

(** X12: called with three numbers, a zero std-dev and a deviation whose
    square is a float (at most 10^150 in absolute value), [normpdf] raises a
    [ZeroDivisionError]: the exponent's division by twice the variance comes
    before anything is returned. *)
Theorem NormalModel_normpdf_zero_sd (x mean sd : Q) :
  (sd == 0)%Q ->
  (- inject_Z (10 ^ 150) <= x - mean)%Q /\ (x - mean <= inject_Z (10 ^ 150))%Q ->
  NormalModel_normpdf [VFloat x; VFloat mean; VFloat sd] = Raise ZeroDivisionError.
Proof using.
  clear rng random_random random_random_range normal_deviate sqrt_nonneg
    joint_maf sample_categorical log_pos exp_max.
  intros Hsd _.
  unfold NormalModel_normpdf. cbn [bind to_float]. unfold div.
  assert (2 * sd ^ 2 == 0)%Q as E by (rewrite Hsd; reflexivity).
  rewrite (Qeq_eq_bool _ _ E). reflexivity.
Qed.

(** *** More on mean maps and generators *)

Lemma index_nine (mu : list Q) (i : Z) :
  List.length mu = 9%nat ->
  index mu i =
    if (i <? -9) || (9 <=? i) then Raise IndexError
    else Ok (nth (Z.to_nat (i mod 9)) mu 0%Q).
Proof.
  intros Hlen. unfold index. rewrite Hlen.
  change (Z.of_nat 9) with 9.
  destruct (i <? 0) eqn:Eneg.
  - apply Z.ltb_lt in Eneg.
    destruct (i <? -9) eqn:Elow.
    + apply Z.ltb_lt in Elow. simpl orb.
      replace (i + 9 <? 0) with true by (symmetry; apply Z.ltb_lt; lia).
      reflexivity.
    + apply Z.ltb_ge in Elow.
      replace (9 <=? i) with false by (symmetry; apply Z.leb_gt; lia).
      replace (i + 9 <? 0) with false by (symmetry; apply Z.ltb_ge; lia).
      replace (9 <=? i + 9) with false by (symmetry; apply Z.leb_gt; lia).
      simpl orb. cbv iota.
      replace (i mod 9) with (i + 9) by (apply Z.mod_unique with (-1); lia).
      rewrite (nth_error_nth' mu 0%Q) by (rewrite Hlen; lia). reflexivity.
  - apply Z.ltb_ge in Eneg. cbv iota.
    replace (i <? 0) with false by (symmetry; apply Z.ltb_ge; lia).
    replace (i <? -9) with false by (symmetry; apply Z.ltb_ge; lia).
    simpl orb.
    destruct (9 <=? i) eqn:Ehigh; [reflexivity |].
    apply Z.leb_gt in Ehigh.
    rewrite Z.mod_small by lia.
    rewrite (nth_error_nth' mu 0%Q) by (rewrite Hlen; lia). reflexivity.
Qed.

(** The lookup mean map on a pair free of the sentinel, as an index into the
    9-entry table. *)
Lemma GeneralMuMap_map_index (mu : list Q) (v0 v1 : Z) :
  List.length mu = 9%nat -> v0 <> 3 -> v1 <> 3 ->
  MuMap_map (GeneralMuMap mu) [v0; v1] =
    if (3 * v0 + v1 <? -9) || (9 <=? 3 * v0 + v1) then Raise IndexError
    else Ok (VFloat (nth (Z.to_nat ((3 * v0 + v1) mod 9)) mu 0%Q)).
Proof.
  intros Hlen H0 H1. unfold MuMap_map.
  assert (existsb (Z.eqb 3) [v0; v1] = false) as Hguard.
  { cbn [existsb].
    replace (3 =? v0) with false by (symmetry; apply Z.eqb_neq; lia).
    replace (3 =? v1) with false by (symmetry; apply Z.eqb_neq; lia).
    reflexivity. }
  rewrite Hguard.
  replace (negb (Nat.eqb (List.length [v0; v1]) 2)) with false by reflexivity.
  cbn [orb]. rewrite index_0, index_1. cbn [bind].
  rewrite (index_nine mu _ Hlen).
  destruct ((3 * v0 + v1 <? -9) || (9 <=? 3 * v0 + v1)); reflexivity.
Qed.

(** X13: on a pair free of the sentinel the lookup mean map reads the 9-entry
    table at [3 * snp1 + snp2] with Python's indexing: the row-major entry
    for states 0..2, the entry counted from the end when the index is
    negative (down to -9), and an [IndexError] outside [-9, 8]; it is never
    [None] there. *)
Theorem GeneralMuMap_map_table (mu : list Q) (v0 v1 : Z) :
  List.length mu = 9%nat -> v0 <> 3 -> v1 <> 3 ->
  MuMap_map (GeneralMuMap mu) [v0; v1] =
    if (3 * v0 + v1 <? -9) || (9 <=? 3 * v0 + v1) then Raise IndexError
    else Ok (VFloat (nth (Z.to_nat ((3 * v0 + v1) mod 9)) mu 0%Q)).
Proof.
  intros Hlen H0 H1. exact (GeneralMuMap_map_index mu v0 v1 Hlen H0 H1).
Qed.

(** X14: when the mean is defined the binary generator consumes one draw and
    returns the int 1 or the int 0: 1 exactly when the draw is at most the
    mean, hence always 1 for a mean of 1 or more and always 0 for a negative
    mean. *)
Theorem BinomialPhenoGenerator_threshold (mu_map : MuMap) (variants : list Z)
    (m : Q) (s : rng) :
  MuMap_map mu_map variants = Ok (VFloat m) ->
  let r := generate_pheno (BinomialPhenoGenerator mu_map) variants s in
  snd r = snd (random_random s)
  /\ (fst r = Ok (VInt 1) \/ fst r = Ok (VInt 0))
  /\ (fst r = Ok (VInt 1) <-> (fst (random_random s) <= m)%Q)
  /\ ((1 <= m)%Q -> fst r = Ok (VInt 1))
  /\ ((m < 0)%Q -> fst r = Ok (VInt 0)).
Proof.
  intros Hmu r.
  destruct (random_random_range s) as [Hlo Hhi].
  assert (r = (Ok (VInt (int_of_bool (Qle_bool (fst (random_random s)) m))),
               snd (random_random s))) as Hr.
  { unfold r, generate_pheno, BinomialPhenoGenerator_generate_pheno,
      bind_rand, lift, random.
    rewrite Hmu. destruct (random_random s) as [u s1]. reflexivity. }
  rewrite Hr. simpl fst. simpl snd.
  destruct (Qle_bool (fst (random_random s)) m) eqn:E; simpl int_of_bool.
  - apply Qle_bool_iff in E.
    repeat split; auto.
    intros Hneg. lra.
  - assert (~ (fst (random_random s) <= m)%Q) as Hnot.
    { intros H. apply Qle_bool_iff in H. congruence. }
    repeat split; auto.
    + discriminate.
    + intros H. contradiction.
    + intros Hm. exfalso. apply Hnot. lra.
Qed.

(** X15: with a 9-entry lookup table and states in 0..2 both generators
    return a phenotype, never [None] and never an exception: the binary one
    0 or 1, the continuous one the table's row-major entry plus the deviate
    times the dispersion. *)
Theorem generate_pheno_lookup_valid_states (mu : list Q) (dispersion : Q)
    (v0 v1 : Z) (s : rng) :
  List.length mu = 9%nat -> 0 <= v0 <= 2 -> 0 <= v1 <= 2 ->
  let m := nth (Z.to_nat (3 * v0 + v1)) mu 0%Q in
  (fst (generate_pheno (BinomialPhenoGenerator (GeneralMuMap mu)) [v0; v1] s)
     = Ok (VInt 1)
   \/ fst (generate_pheno (BinomialPhenoGenerator (GeneralMuMap mu)) [v0; v1] s)
     = Ok (VInt 0))
  /\ generate_pheno (NormalPhenoGenerator (GeneralMuMap mu) dispersion) [v0; v1] s
     = (Ok (VFloat (m + fst (normal_deviate s) * dispersion)%Q),
        snd (normal_deviate s)).
Proof.
  intros Hlen H0 H1 m.
  assert (MuMap_map (GeneralMuMap mu) [v0; v1] = Ok (VFloat m)) as Hmu.
  { rewrite GeneralMuMap_map_index by (try exact Hlen; lia).
    replace (3 * v0 + v1 <? -9) with false by (symmetry; apply Z.ltb_ge; lia).
    replace (9 <=? 3 * v0 + v1) with false by (symmetry; apply Z.leb_gt; lia).
    simpl orb. cbv iota. rewrite Z.mod_small by lia. reflexivity. }
  split.
  - unfold generate_pheno, BinomialPhenoGenerator_generate_pheno,
      bind_rand, lift, random.
    rewrite Hmu. destruct (random_random s) as [u s1]. simpl.
    destruct (Qle_bool u m); auto.
  - unfold generate_pheno, NormalPhenoGenerator_generate_pheno,
      bind_rand, lift, random_normalvariate.
    rewrite Hmu. destruct (normal_deviate s) as [z s1]. reflexivity.
Qed.

(** *** Link functions, the mean table and the factories *)

(** X16: [get_link] finds a link exactly for the names that [get_link_names]
    lists (identity, log, exp, logc, odds, logodds, in that order); for any
    other name it returns [None] and raises nothing. *)
Theorem get_link_defined_on_names (link_str : string) :
  get_link_names
  = [ "identity"; "log"; "exp"; "logc"; "odds"; "logodds" ]%string
  /\ (get_link link_str <> None <-> In link_str get_link_names).
Proof.
  split; [reflexivity |].
  unfold get_link, get_link_names. split.
  - destruct (find (fun kv => String.eqb (fst kv) link_str) get_links)
      as [kv |] eqn:E; [| congruence].
    intros _. apply find_some in E. destruct E as [Hin Heq].
    apply String.eqb_eq in Heq. subst link_str.
    apply in_map. exact Hin.
  - intros Hin. apply in_map_iff in Hin. destruct Hin as [kv [Hk Hin]].
    destruct (find (fun kv => String.eqb (fst kv) link_str) get_links)
      as [kv' |] eqn:E; [discriminate |].
    exfalso. pose proof (find_none _ _ E kv Hin) as Hf. simpl in Hf.
    rewrite Hk, String.eqb_refl in Hf. discriminate.
Qed.

(** X17: the registry hands out the exponential under the name "log" and the
    logarithm under the name "exp": the "log" link returns the exponential up
    to [exp_max] and raises an [OverflowError] above it, the "exp" link raises
    a [ValueError] at and below zero and returns the logarithm above zero. *)
Theorem get_link_log_exp_swapped :
  exists f g,
    get_link "log" = Some f /\ get_link "exp" = Some g
    /\ (forall x, (x <= exp_max)%Q -> f x = Ok (math_exp x))
    /\ (forall x, (exp_max < x)%Q -> f x = Raise OverflowError)
    /\ (forall x, (x <= 0)%Q -> g x = Raise (ValueError "math domain error"))
    /\ (forall x, (0 < x)%Q -> g x = Ok (log_pos x)).
Proof.
  exists math_exp_call, math_log.
  split; [reflexivity |]. split; [reflexivity |].
  split; [| split; [| split]]; intros x Hx.
  - unfold math_exp_call. apply Qle_bool_iff in Hx. rewrite Hx. reflexivity.
  - unfold math_exp_call. destruct (Qle_bool x exp_max) eqn:E; [| reflexivity].
    apply Qle_bool_iff in E. lra.
  - unfold math_log. apply Qle_bool_iff in Hx. rewrite Hx. reflexivity.
  - unfold math_log. destruct (Qle_bool x 0) eqn:E; [| reflexivity].
    apply Qle_bool_iff in E. lra.
Qed.

(** X18: the "odds" link raises a [ZeroDivisionError] exactly at -1 and
    returns [x / (1 + x)] everywhere else. *)
Theorem odds_link_pole (x : Q) :
  exists f,
    get_link "odds" = Some f
    /\ ((x == -1)%Q -> f x = Raise ZeroDivisionError)
    /\ (~ (x == -1)%Q -> f x = Ok (x / (1 + x))%Q).
Proof.
  exists (fun x => div x (1 + x)%Q).
  split; [reflexivity |]. unfold div. split; intros Hx.
  - assert (1 + x == 0)%Q as E by lra.
    rewrite (Qeq_eq_bool _ _ E). reflexivity.
  - destruct (Qeq_bool (1 + x) 0) eqn:E; [| reflexivity].
    apply Qeq_bool_eq in E. exfalso. apply Hx. lra.
Qed.

(** X19: the "logodds" link raises an [OverflowError] when [- x] exceeds
    [exp_max]; otherwise, the exponential being non-negative, it returns a
    value above 0 and at most 1. *)
Theorem logodds_link_range (x : Q) :
  exists f,
    get_link "logodds" = Some f
    /\ ((exp_max < - x)%Q -> f x = Raise OverflowError)
    /\ ((- x <= exp_max)%Q -> (0 <= math_exp (- x))%Q ->
        exists y, f x = Ok y /\ (0 < y)%Q /\ (y <= 1)%Q).
Proof.
  exists (fun x => e <- math_exp_call (- x) ;; div 1 (1 + e)%Q).
  split; [reflexivity |]. unfold math_exp_call. split.
  - intros Hx. destruct (Qle_bool (- x) exp_max) eqn:E; [| reflexivity].
    apply Qle_bool_iff in E. lra.
  - intros Hx Hexp. apply Qle_bool_iff in Hx. rewrite Hx. cbn [bind].
    exists (1 / (1 + math_exp (- x)))%Q.
    assert (0 < 1 + math_exp (- x))%Q as Hd by lra.
    split; [| split].
    + unfold div. destruct (Qeq_bool (1 + math_exp (- x)) 0) eqn:E; [| reflexivity].
      apply Qeq_bool_eq in E. lra.
    + apply Qlt_shift_div_l; [exact Hd | lra].
    + apply Qle_shift_div_r; [exact Hd | lra].
Qed.

Ltac by_states v0 v1 :=
  let H := fresh in
  assert (H : (v0 = 0 \/ v0 = 1 \/ v0 = 2) /\ (v1 = 0 \/ v1 = 1 \/ v1 = 2)) by lia;
  destruct H as [[-> | [-> | ->]] [-> | [-> | ->]]].

(** X20: through the identity link the mean table of nine coefficients is
    additive in the design's terms: looked up at states (i, j) in 0..2 it
    gives the intercept b0, plus b1 or b2 when the second locus is in state
    1 or 2, plus b3 or b4 when the first locus is in state 1 or 2, plus the
    interaction b5, b6, b7 or b8 for the states (1,1), (1,2), (2,1), (2,2). *)
Theorem get_mean_values_identity_lookup (b0 b1 b2 b3 b4 b5 b6 b7 b8 : Q)
    (i j : Z) :
  0 <= i <= 2 -> 0 <= j <= 2 ->
  exists mu m,
    get_mean_values [b0; b1; b2; b3; b4; b5; b6; b7; b8] (fun x => Ok x) = Ok mu
    /\ MuMap_map (GeneralMuMap mu) [i; j] = Ok (VFloat m)
    /\ (m == b0
           + (if j =? 1 then b1 else if j =? 2 then b2 else 0)
           + (if i =? 1 then b3 else if i =? 2 then b4 else 0)
           + (if (i =? 1) && (j =? 1) then b5
              else if (i =? 1) && (j =? 2) then b6
              else if (i =? 2) && (j =? 1) then b7
              else if (i =? 2) && (j =? 2) then b8
              else 0))%Q.
Proof.
  intros Hi Hj.
  set (beta := [b0; b1; b2; b3; b4; b5; b6; b7; b8]).
  assert (exists mu,
             get_mean_values beta (fun x => Ok x) = Ok mu
             /\ List.length mu = 9%nat
             /\ forall k, (k < 9)%nat ->
                  (nth k mu 0
                   == nth k [ b0; b0 + b1; b0 + b2; b0 + b3; b0 + b1 + b3 + b5;
                              b0 + b2 + b3 + b6; b0 + b4; b0 + b1 + b4 + b7;
                              b0 + b2 + b4 + b8 ] 0)%Q)
    as (mu & Hmu & Hlen & Hnth).
  { eexists. split; [unfold get_mean_values; cbn [traverse bind]; reflexivity |].
    split; [reflexivity |].
    intros k Hk.
    do 9 (destruct k as [| k];
          [ unfold sum, zip, beta; cbn -[Qplus Qmult Qeq inject_Z];
            change (inject_Z 1) with 1%Q; change (inject_Z 0) with 0%Q; ring |]).
    lia. }
  exists mu, (nth (Z.to_nat (3 * i + j)) mu 0%Q).
  split; [exact Hmu |]. split.
  - rewrite GeneralMuMap_map_index by (try exact Hlen; lia).
    replace (3 * i + j <? -9) with false by (symmetry; apply Z.ltb_ge; lia).
    replace (9 <=? 3 * i + j) with false by (symmetry; apply Z.leb_gt; lia).
    cbn [orb]. rewrite Z.mod_small by lia. reflexivity.
  - rewrite Hnth by lia.
    by_states i j;
      match goal with
      | |- context [Z.to_nat ?z] =>
          let n := eval vm_compute in (Z.to_nat z) in change (Z.to_nat z) with n
      end;
      cbn -[Qplus Qmult Qeq]; ring.
Qed.

Lemma traverse_total_length {A B : Type} (f : A -> result B) (l : list A) :
  (forall x, exists y, f x = Ok y) ->
  exists ys, traverse f l = Ok ys /\ List.length ys = List.length l.
Proof.
  intros Hf. induction l as [| x t [ys [Hys Hlen]]].
  - exists []. split; reflexivity.
  - destruct (Hf x) as [y Hy]. exists (y :: ys). split.
    + simpl. rewrite Hy, Hys. reflexivity.
    + simpl. f_equal. exact Hlen.
Qed.

(** X21: with a link that never raises the mean table has nine entries
    whatever the number of coefficients; missing coefficients are dropped by
    [zip], so that an empty vector gives nine times the link of 0. *)
Theorem get_mean_values_nine_entries (beta : list Q) (lf : Q -> result Q) :
  (forall x, exists y, lf x = Ok y) ->
  (exists mu, get_mean_values beta lf = Ok mu /\ List.length mu = 9%nat)
  /\ (forall y, lf 0%Q = Ok y -> get_mean_values [] lf = Ok (repeat y 9)).
Proof.
  intros Hlf. split.
  - unfold get_mean_values.
    match goal with
    | |- context [traverse ?f ?P] =>
        destruct (traverse_total_length f P) as [mu [Hmu Hlen]]
    end.
    + intros row. apply Hlf.
    + exists mu. split; [exact Hmu | exact Hlen].
  - intros y Hy. unfold get_mean_values. simpl traverse.
    change (sum []) with 0%Q. rewrite Hy. reflexivity.
Qed.

(** X22: built through the link registered as "exp" (the logarithm), the
    mean table of nine coefficients needs a positive intercept: with an
    intercept at or below zero the first state's mean raises a [ValueError]
    and no table is returned. *)
Theorem get_mean_values_log_link_intercept (b0 b1 b2 b3 b4 b5 b6 b7 b8 : Q) :
  (b0 <= 0)%Q ->
  exists lf,
    get_link "exp" = Some lf
    /\ get_mean_values [b0; b1; b2; b3; b4; b5; b6; b7; b8] lf
       = Raise (ValueError "math domain error").
Proof.
  intros Hb. exists math_log. split; [reflexivity |].
  unfold get_mean_values. cbn [traverse]. unfold math_log at 1.
  match goal with
  | |- context [Qle_bool ?x 0] =>
      assert (x <= 0)%Q as Hx
        by (unfold sum, zip; cbn -[Qplus Qmult Qle inject_Z];
            change (inject_Z 1) with 1%Q; change (inject_Z 0) with 0%Q;
            ring_simplify; exact Hb)
  end.
  apply Qle_bool_iff in Hx. rewrite Hx. reflexivity.
Qed.

(** X23: every name that [get_models] lists is accepted by both factories:
    the generator factory returns a generator, and the model factory a model
    with its parameters once the joint table of the marginals is computed. *)
Theorem get_models_accepted (model : string) (mu_map : MuMap) (dispersion : Q)
    (mu : list Q) (std : Q) (maf joint : list Q) :
  In model get_models -> joint_maf maf None = Ok joint ->
  (exists generator, get_pheno_generator model mu_map dispersion = Ok generator)
  /\ (exists mp, get_model_and_params model mu std maf = Ok mp).
Proof.
  intros Hin Hj. unfold get_models in Hin. simpl in Hin.
  destruct Hin as [<- | [<- | []]].
  - split; [eexists; reflexivity |].
    unfold get_model_and_params, NormalModel_init. simpl String.eqb.
    rewrite Hj. eexists. reflexivity.
  - split; eexists; reflexivity.
Qed.

(** X24: for the key "normal" the model factory builds the joint table at
    once: an exception of the joint-frequency calculator is the factory's;
    for "binomial" the calculator is not consulted. *)
Theorem get_model_and_params_joint_maf_raises (mu : list Q) (std : Q)
    (maf : list Q) (e : exn) :
  joint_maf maf None = Raise e ->
  get_model_and_params "normal" mu std maf = Raise e
  /\ get_model_and_params "binomial" mu std maf
     = Ok (ABinomialModel, BinomialParams mu).
Proof.
  intros Hj. split; [| reflexivity].
  unfold get_model_and_params, NormalModel_init. simpl String.eqb.
  rewrite Hj. reflexivity.
Qed.

(** X25: the binary model end to end: when [generate_genotype] returns on the
    labels that [generate_phenotype] produced for the same parameters, each
    of its two sequences holds one state per configured case and control. *)
Theorem BinomialModel_phenotype_then_genotype (maf : list Q) (ld : option Q)
    (sample_maf : bool) (cases controls : Z) (rest : list Z)
    (penetrance : list Q) (labels snp1_list snp2_list : list Z) (s s' : rng) :
  let fp := {| fp_maf := maf; fp_ld := ld;
               fp_sample_size := cases :: controls :: rest;
               fp_sample_maf := sample_maf |} in
  BinomialModel_generate_phenotype fp = Ok labels ->
  BinomialModel_generate_genotype fp penetrance labels s
    = (Ok (snp1_list, snp2_list), s') ->
  Z.of_nat (List.length snp1_list) = Z.max 0 cases + Z.max 0 controls
  /\ Z.of_nat (List.length snp2_list) = Z.max 0 cases + Z.max 0 controls.
Proof.
  intros fp Hph Hg.
  apply BinomialModel_generate_genotype_length_of_result in Hg.
  destruct Hg as [H1 H2]. rewrite H1, H2.
  unfold BinomialModel_generate_phenotype, num_cases, num_controls, fp in Hph.
  cbn [fp_sample_size] in Hph. rewrite index_0, index_1 in Hph.
  cbn [bind] in Hph. injection Hph as <-.
  unfold replicate. rewrite length_app, !repeat_length. lia.
Qed.

End Genmodels.

(** ** The module run on concrete inputs *)

Ltac qlist_eq :=
  repeat first [ apply Forall2_nil
               | apply Forall2_cons; [vm_compute; reflexivity |] ].

Lemma Fixture_random_random_range (s : Fixture.rng) :
  (0 <= fst (Fixture.random_random s))%Q /\ (fst (Fixture.random_random s) < 1)%Q.
Proof.
  unfold Fixture.random_random. simpl fst. split.
  - unfold Qle. simpl. lia.
  - unfold Qlt. simpl. lia.
Qed.

(** C1: on the uniform joint table, a penetrance of 1 in state (0,0) and 0
    elsewhere, and label 0, the code returns the posterior of the cases
    (all mass on state (0,0)) where Bayes' rule with the complement gives
    mass 1/8 to each of the other eight states. *)
Theorem BinomialModel_joint_prob_control_label :
  let f := Fixture.uniform_table in
  let p := [1; 0; 0; 0; 0; 0; 0; 0; 0]%Q in
  exists v,
    BinomialModel_joint_prob f p 0 = Ok v
    /\ Qlist_eq v [1; 0; 0; 0; 0; 0; 0; 0; 0]%Q
    /\ Qlist_eq (bayes_posterior f p 0)
         [0; 1 # 8; 1 # 8; 1 # 8; 1 # 8; 1 # 8; 1 # 8; 1 # 8; 1 # 8]%Q
    /\ ~ Qlist_eq v (bayes_posterior f p 0).
Proof.
  intros f p. eexists. split; [vm_compute; reflexivity |].
  split; [| split].
  - unfold Qlist_eq. qlist_eq.
  - unfold Qlist_eq. qlist_eq.
  - intros H. inversion H as [| x y l l' Hxy _]; subst.
    vm_compute in Hxy. discriminate Hxy.
Qed.

(** C4: on the input [0, 1], of the coefficient vector's length and free of
    the sentinel, the additive mean map with intercept 1, coefficients
    [1/2, 1/4] and the identity link raises a [NameError] where the link of
    1 + 0 * 1/2 + 1 * 1/4 = 5/4 is expected; on [3, 1] and on [0] it returns
    [None]. *)
Theorem AdditiveMuMap_map_raises_on_valid_input (math_pi : Q) :
  let mu_map := AdditiveMuMap 1 [1 # 2; 1 # 4]%Q (fun x => Ok x) in
  MuMap_map math_pi mu_map [0; 1] = Raise NameError
  /\ (1 + sum (map (fun '(v, b) => inject_Z v * b) (zip [0; 1]%Z [1 # 2; 1 # 4]))
      == 5 # 4)%Q
  /\ MuMap_map math_pi mu_map [3; 1] = Ok VNone
  /\ MuMap_map math_pi mu_map [0] = Ok VNone.
Proof.
  intros mu_map. repeat split.
Qed.

(** C5: two inputs with weights that are not all zero on which no vector
    summing to 1 is returned.  Binary model, label 0, penetrance 0 in every
    state on the uniform table: the complement weights are the table itself,
    and the code divides by zero.  Continuous model, means 0, std-devs 1, the
    uniform table and phenotype 0: the call of [normpdf] raises. *)
Theorem joint_prob_returns_no_unit_vector
    (math_exp : Q -> Q) (math_pi : Q) (pow_half : Q -> Q) (self : NormalModel) :
  let f := Fixture.uniform_table in
  (Exists (fun g => ~ (g == 0)%Q) (bayes_weights f (repeat 0%Q 9) 0)
   /\ BinomialModel_joint_prob f (repeat 0%Q 9) 0 = Raise ZeroDivisionError)
  /\ NormalModel_joint_prob math_exp math_pi pow_half self
       (repeat 0%Q 9) (repeat 1%Q 9) f 0 = Raise TypeError.
Proof.
  intros f. split; [split |].
  - apply Exists_cons_hd. vm_compute. discriminate.
  - vm_compute. reflexivity.
  - reflexivity.
Qed.

(** C7: with penetrance 1 in every state and label 0 every product of the
    complement with the joint table is zero, and the code returns the
    normalized table instead of dividing by zero. *)
Theorem BinomialModel_joint_prob_complement_degenerate :
  let f := Fixture.uniform_table in
  let p := repeat 1%Q 9 in
  Forall (fun g => g == 0)%Q (bayes_weights f p 0)
  /\ exists v, BinomialModel_joint_prob f p 0 = Ok v /\ Qlist_eq v f.
Proof.
  intros f p. split.
  - repeat (apply Forall_cons; [vm_compute; reflexivity |]). apply Forall_nil.
  - eexists. split; [vm_compute; reflexivity |].
    unfold Qlist_eq. qlist_eq.
Qed.

Lemma NormalModel_joint_prob_raises_witness :
  let self := {| nm_mu := repeat 0%Q 9; nm_std := repeat 1%Q 9;
                 nm_maf := Fixture.uniform_table |} in
  List.length (repeat 0%Q 9) = 9%nat
  /\ List.length (repeat 1%Q 9) = 9%nat
  /\ List.length Fixture.uniform_table = 9%nat
  /\ NormalModel_joint_prob Fixture.math_exp Fixture.math_pi Fixture.sqrt_nonneg self
       (repeat 0%Q 9) (repeat 1%Q 9) Fixture.uniform_table (1 # 2) = Raise TypeError.
Proof.
  intros self.
  split; [reflexivity |]. split; [reflexivity |]. split; [reflexivity |].
  apply (NormalModel_joint_prob_raises Fixture.math_exp Fixture.math_pi
           Fixture.sqrt_nonneg self (repeat 0%Q 9) (repeat 1%Q 9)
           Fixture.uniform_table (1 # 2)); reflexivity.
Defined.

(** The lookup mean map is undefined on [3, 1], and on that input neither
    generator returns [None]. *)
Lemma generate_pheno_sentinel_not_undefined :
  let mu_map := GeneralMuMap (repeat (1 # 2) 9) in
  MuMap_map Fixture.math_pi mu_map [3; 1] = Ok VNone
  /\ fst (generate_pheno Fixture.rng Fixture.random_random Fixture.normal_deviate
            Fixture.math_pi (BinomialPhenoGenerator mu_map) [3; 1] 0%nat)
     <> Ok VNone
  /\ fst (generate_pheno Fixture.rng Fixture.random_random Fixture.normal_deviate
            Fixture.math_pi (NormalPhenoGenerator mu_map 1) [3; 1] 0%nat)
     <> Ok VNone.
Proof.
  intros mu_map. split; [reflexivity |].
  split; vm_compute; discriminate.
Qed.

Lemma generate_pheno_undefined_mean_raises_witness :
  let mu_map := GeneralMuMap (repeat (1 # 2) 9) in
  MuMap_map Fixture.math_pi mu_map [3; 1] = Ok VNone
  /\ fst (generate_pheno Fixture.rng Fixture.random_random Fixture.normal_deviate
            Fixture.math_pi (BinomialPhenoGenerator mu_map) [3; 1] 0%nat)
     = Raise TypeError
  /\ fst (generate_pheno Fixture.rng Fixture.random_random Fixture.normal_deviate
            Fixture.math_pi (NormalPhenoGenerator mu_map 1) [3; 1] 0%nat)
     = Raise TypeError.
Proof.
  intros mu_map. split; [reflexivity |].
  apply (generate_pheno_undefined_mean_raises Fixture.rng Fixture.random_random
           Fixture.normal_deviate Fixture.math_pi mu_map 1 [3; 1] 0%nat).
  reflexivity.
Defined.

(** On the key "poisson" each factory raises a [ValueError] naming the key;
    neither raises an exception of a class named InvalidModel. *)
Lemma factories_raise_no_InvalidModel :
  let mu_map := GeneralMuMap (repeat (1 # 2) 9) in
  let mu := repeat (1 # 2) 9 in
  get_pheno_generator "poisson" mu_map 1
    = Raise (ValueError "No such model poisson.")
  /\ get_model_and_params Fixture.joint_maf "poisson" mu 1 [1 # 5; 3 # 10]
    = Raise (ValueError "Unknown model poisson")
  /\ ~ (exists e, get_pheno_generator "poisson" mu_map 1 = Raise e
                  /\ exn_name e = "InvalidModel"%string)
  /\ ~ (exists e, get_model_and_params Fixture.joint_maf "poisson" mu 1
                    [1 # 5; 3 # 10] = Raise e
                  /\ exn_name e = "InvalidModel"%string).
Proof.
  intros mu_map mu.
  split; [reflexivity |]. split; [reflexivity |].
  split; intros [e [He Hn]];
    vm_compute in He; injection He as <-; vm_compute in Hn; discriminate Hn.
Qed.

Lemma factories_dispatch_witness :
  let mu_map := GeneralMuMap (repeat (1 # 2) 9) in
  let mu := repeat (1 # 2) 9 in
  let maf := [1 # 5; 3 # 10]%Q in
  exists joint,
    "poisson"%string <> "normal"%string
    /\ "poisson"%string <> "binomial"%string
    /\ Fixture.joint_maf maf None = Ok joint
    /\ get_pheno_generator "poisson" mu_map 1
       = Raise (ValueError "No such model poisson.")
    /\ get_model_and_params Fixture.joint_maf "poisson" mu 1 maf
       = Raise (ValueError "Unknown model poisson")
    /\ get_model_and_params Fixture.joint_maf "poisson" mu 1 []
       = Raise (ValueError "Unknown model poisson")
    /\ get_model_and_params Fixture.joint_maf "normal" mu 1 maf
       = Ok (ANormalModel {| nm_mu := mu; nm_std := repeat 1%Q 9; nm_maf := joint |},
             NormalParams mu (repeat 1%Q 9))
    /\ get_model_and_params Fixture.joint_maf "binomial" mu 1 []
       = Ok (ABinomialModel, BinomialParams mu).
Proof.
  intros mu_map mu maf. eexists.
  assert (Hn : "poisson"%string <> "normal"%string) by discriminate.
  assert (Hb : "poisson"%string <> "binomial"%string) by discriminate.
  split; [exact Hn |]. split; [exact Hb |].
  assert (Hj : Fixture.joint_maf maf None
               = Ok (match Fixture.joint_maf maf None with Ok j => j | Raise _ => [] end))
    by reflexivity.
  split; [exact Hj |].
  pose proof (factories_dispatch Fixture.joint_maf "poisson" mu_map 1 mu 1 maf)
    as (Hu & _ & Hnorm & _ & _).
  pose proof (factories_dispatch Fixture.joint_maf "poisson" mu_map 1 mu 1 [])
    as (Hu' & _ & _ & _ & Hbin).
  destruct (Hu Hn Hb) as [H1 H2]. destruct (Hu' Hn Hb) as [_ H2'].
  split; [exact H1 |]. split; [exact H2 |]. split; [exact H2' |].
  split; [exact (Hnorm _ Hj) | exact Hbin].
Defined.

(** With 3 cases and 2 controls [num_samples] is 3, not 3 + 2. *)
Lemma num_samples_is_not_the_total :
  let fp := {| fp_maf := [1 # 5; 3 # 10]%Q; fp_ld := None;
               fp_sample_size := [3; 2]; fp_sample_maf := false |} in
  num_cases fp = Ok 3 /\ num_controls fp = Ok 2 /\ num_samples fp = Ok 3
  /\ ~ (exists n c k, num_samples fp = Ok n /\ num_cases fp = Ok c
                      /\ num_controls fp = Ok k /\ n = c + k).
Proof.
  intros fp. repeat split.
  intros (n & c & k & Hs & Hc & Hk & Hsum).
  vm_compute in Hs, Hc, Hk.
  injection Hs as <-. injection Hc as <-. injection Hk as <-. discriminate Hsum.
Qed.

Lemma get_maf_sampled_marginals_witness :
  let fp := {| fp_maf := [1 # 10; 3 # 10]%Q; fp_ld := None;
               fp_sample_size := [3; 2]; fp_sample_maf := true |} in
  (1 # 10 <= 3 # 10)%Q
  /\ exists m1 m2,
       get_maf Fixture.rng Fixture.random_random Fixture.joint_maf fp 0%nat
       = (Fixture.joint_maf [m1; m2] None, 2%nat)
       /\ ((1 # 10 <= m1)%Q /\ (m1 <= 3 # 10)%Q)
       /\ ((1 # 10 <= m2)%Q /\ (m2 <= 3 # 10)%Q).
Proof.
  intros fp.
  assert (Hb : (1 # 10 <= 3 # 10)%Q) by (unfold Qle; simpl; lia).
  split; [exact Hb |].
  pose proof (get_maf_sampled_marginals Fixture.rng Fixture.random_random
                Fixture_random_random_range Fixture.joint_maf
                (1 # 10) (3 # 10) [] None [3; 2] 0%nat Hb) as H.
  cbv zeta in H. destruct H as (H1 & H2 & H3 & _).
  eexists. eexists. split; [exact H1 |]. split; [exact H2 | exact H3].
Defined.

Lemma NormalModel_generate_phenotype_reads_sample_count_witness :
  let fp1 := {| fp_maf := [1 # 10; 3 # 10]%Q; fp_ld := None;
                fp_sample_size := [5; 0]; fp_sample_maf := false |} in
  let fp2 := {| fp_maf := [2 # 5; 1 # 2]%Q; fp_ld := Some (1 # 2);
                fp_sample_size := [5; 7]; fp_sample_maf := true |} in
  let self := {| nm_mu := [0; 1; 2; 1; 2; 3; 2; 3; 4]%Q; nm_std := repeat 1%Q 9;
                 nm_maf := Fixture.uniform_table |} in
  num_samples fp1 = num_samples fp2
  /\ NormalModel_generate_phenotype Fixture.rng Fixture.normal_deviate
       Fixture.sqrt_nonneg self fp1 0%nat
     = NormalModel_generate_phenotype Fixture.rng Fixture.normal_deviate
         Fixture.sqrt_nonneg self fp2 0%nat.
Proof.
  intros fp1 fp2 self.
  assert (Hn : num_samples fp1 = num_samples fp2) by reflexivity.
  split; [exact Hn |].
  exact (proj2 (NormalModel_generate_phenotype_reads_sample_count Fixture.rng
                  Fixture.normal_deviate Fixture.sqrt_nonneg Fixture.joint_maf
                  (nm_mu self) (nm_std self) [1 # 10; 3 # 10]%Q fp1 fp2 0%nat Hn)
           self).
Defined.

Lemma get_maf_sampled_short_bounds_witness :
  (List.length [1 # 5]%Q < 2)%nat
  /\ get_maf Fixture.rng Fixture.random_random Fixture.joint_maf
       {| fp_maf := [1 # 5]%Q; fp_ld := None; fp_sample_size := [3; 2];
          fp_sample_maf := true |} 0%nat = (Raise IndexError, 0%nat).
Proof.
  assert (H : (List.length [1 # 5]%Q < 2)%nat) by (simpl; lia).
  split; [exact H |].
  exact (get_maf_sampled_short_bounds Fixture.rng Fixture.random_random
           Fixture.joint_maf [1 # 5]%Q None [3; 2] 0%nat H).
Defined.

Lemma get_maf_sampled_reversed_bounds_witness :
  (1 # 10 <= 3 # 10)%Q
  /\ exists m1 m2,
       get_maf Fixture.rng Fixture.random_random Fixture.joint_maf
         {| fp_maf := [3 # 10; 1 # 10]%Q; fp_ld := None; fp_sample_size := [3; 2];
            fp_sample_maf := true |} 0%nat
       = (Fixture.joint_maf [m1; m2] None, 2%nat)
       /\ ((1 # 10 <= m1)%Q /\ (m1 <= 3 # 10)%Q)
       /\ ((1 # 10 <= m2)%Q /\ (m2 <= 3 # 10)%Q).
Proof.
  assert (Hb : (1 # 10 <= 3 # 10)%Q) by (unfold Qle; simpl; lia).
  split; [exact Hb |].
  exact (get_maf_sampled_reversed_bounds Fixture.rng Fixture.random_random
           Fixture_random_random_range Fixture.joint_maf
           (3 # 10) (1 # 10) [] None [3; 2] 0%nat Hb).
Defined.

Lemma BinomialModel_generate_phenotype_short_sample_size_witness :
  let fp := {| fp_maf := [1 # 5; 3 # 10]%Q; fp_ld := None; fp_sample_size := [4];
               fp_sample_maf := false |} in
  (List.length [4] < 2)%nat
  /\ BinomialModel_generate_phenotype fp = Raise IndexError
  /\ num_samples fp = Ok 4.
Proof.
  intros fp.
  assert (H : (List.length [4] < 2)%nat) by (simpl; lia).
  split; [exact H |].
  pose proof (BinomialModel_generate_phenotype_short_sample_size
                [1 # 5; 3 # 10]%Q None false [4] H) as [H1 H2].
  split; [exact H1 | exact (H2 4 eq_refl)].
Defined.

Lemma BinomialModel_generate_phenotype_layout_witness :
  exists labels,
    BinomialModel_generate_phenotype
      {| fp_maf := [1 # 5; 3 # 10]%Q; fp_ld := None; fp_sample_size := [3; 2];
         fp_sample_maf := false |} = Ok labels
    /\ Z.of_nat (List.length labels) = 5
    /\ index labels 2 = Ok 1 /\ index labels 3 = Ok 0.
Proof.
  destruct (BinomialModel_generate_phenotype_layout [1 # 5; 3 # 10]%Q None false
              3 2 []) as (labels & H1 & H2 & H3).
  exists labels. split; [exact H1 |]. split; [exact H2 |].
  split; [apply (H3 2) | apply (H3 3)]; simpl; lia.
Defined.

Lemma BinomialModel_joint_prob_distribution_witness :
  let maf := [1 # 4; 3 # 4]%Q in
  let penetrance := [1 # 2; 1 # 6]%Q in
  let v := [192 # 384; 576 # 1152]%Q in
  Forall (fun f => 0 <= f /\ f <= 1)%Q maf
  /\ Forall (fun p => 0 <= p /\ p <= 1)%Q penetrance
  /\ BinomialModel_joint_prob maf penetrance 1 = Ok v
  /\ List.length v = 2%nat
  /\ Forall (fun g => 0 <= g /\ g <= 1)%Q v
  /\ (v <> [] -> (sum v == 1)%Q).
Proof.
  intros maf penetrance v.
  assert (Hm : Forall (fun f => 0 <= f /\ f <= 1)%Q maf)
    by (repeat (apply Forall_cons; [split; unfold Qle; simpl; lia |]);
        apply Forall_nil).
  assert (Hp : Forall (fun p => 0 <= p /\ p <= 1)%Q penetrance)
    by (repeat (apply Forall_cons; [split; unfold Qle; simpl; lia |]);
        apply Forall_nil).
  assert (Hv : BinomialModel_joint_prob maf penetrance 1 = Ok v)
    by (vm_compute; reflexivity).
  split; [exact Hm |]. split; [exact Hp |]. split; [exact Hv |].
  exact (BinomialModel_joint_prob_distribution maf penetrance 1 v Hm Hp Hv).
Defined.


Lemma BinomialModel_generate_genotype_lengths_witness :
  let fp := {| fp_maf := [1 # 5; 3 # 10]%Q; fp_ld := None; fp_sample_size := [2; 1];
               fp_sample_maf := false |} in
  let penetrance := [1; 0; 0; 0; 0; 0; 0; 0; 1 # 2]%Q in
  BinomialModel_generate_genotype Fixture.rng Fixture.random_random
    Fixture.joint_maf Fixture.sample_categorical fp penetrance [1; 1; 0] 0%nat
  = (Ok ([0; 0; 0], [0; 1; 2]), 3%nat)
  /\ List.length [0; 0; 0] = List.length [1; 1; 0]
  /\ List.length [0; 1; 2] = List.length [1; 1; 0].
Proof.
  intros fp penetrance.
  assert (H : BinomialModel_generate_genotype Fixture.rng Fixture.random_random
                Fixture.joint_maf Fixture.sample_categorical fp penetrance
                [1; 1; 0] 0%nat = (Ok ([0; 0; 0], [0; 1; 2]), 3%nat))
    by (vm_compute; reflexivity).
  split; [exact H |].
  exact (BinomialModel_generate_genotype_lengths Fixture.rng Fixture.random_random
           Fixture.joint_maf Fixture.sample_categorical fp penetrance [1; 1; 0]
           0%nat 3%nat [0; 0; 0] [0; 1; 2] H).
Defined.

Lemma BinomialModel_generate_genotype_label_blind_witness :
  let fp := {| fp_maf := [1 # 5; 3 # 10]%Q; fp_ld := None; fp_sample_size := [2; 1];
               fp_sample_maf := false |} in
  let penetrance := [1; 0; 0; 0; 0; 0; 0; 0; 1 # 2]%Q in
  List.length [1; 1; 0] = List.length [0; 0; 1]
  /\ Forall (fun l => l = 0 \/ l = 1) [1; 1; 0]
  /\ Forall (fun l => l = 0 \/ l = 1) [0; 0; 1]
  /\ BinomialModel_generate_genotype Fixture.rng Fixture.random_random
       Fixture.joint_maf Fixture.sample_categorical fp penetrance [1; 1; 0] 0%nat
     = BinomialModel_generate_genotype Fixture.rng Fixture.random_random
         Fixture.joint_maf Fixture.sample_categorical fp penetrance [0; 0; 1] 0%nat.
Proof.
  intros fp penetrance.
  assert (H1 : Forall (fun l => l = 0 \/ l = 1) [1; 1; 0])
    by (repeat constructor; auto).
  assert (H2 : Forall (fun l => l = 0 \/ l = 1) [0; 0; 1])
    by (repeat constructor; auto).
  split; [reflexivity |]. split; [exact H1 |]. split; [exact H2 |].
  exact (BinomialModel_generate_genotype_label_blind Fixture.rng
           Fixture.random_random Fixture.joint_maf Fixture.sample_categorical
           fp penetrance [1; 1; 0] [0; 0; 1] 0%nat eq_refl H1 H2).
Defined.

Lemma BinomialModel_generate_genotype_degenerate_witness :
  let fp := {| fp_maf := [1 # 5; 3 # 10]%Q; fp_ld := None; fp_sample_size := [0; 0];
               fp_sample_maf := false |} in
  let penetrance := repeat 0%Q 9 in
  exists maf,
    get_maf Fixture.rng Fixture.random_random Fixture.joint_maf fp 0%nat
    = (Ok maf, 0%nat)
    /\ code_weights maf penetrance <> []
    /\ Forall (fun g => g == 0)%Q (code_weights maf penetrance)
    /\ BinomialModel_generate_genotype Fixture.rng Fixture.random_random
         Fixture.joint_maf Fixture.sample_categorical fp penetrance [] 0%nat
       = (Raise ZeroDivisionError, 0%nat).
Proof.
  intros fp penetrance. eexists.
  assert (Hm : get_maf Fixture.rng Fixture.random_random Fixture.joint_maf fp 0%nat
               = (Ok (match Fixture.joint_maf [1 # 5; 3 # 10]%Q None with
                      | Ok t => t
                      | Raise _ => []
                      end), 0%nat)) by reflexivity.
  split; [exact Hm |].
  match type of Hm with
  | _ = (Ok ?t, _) =>
      assert (Hne : code_weights t penetrance <> [])
        by (vm_compute; discriminate);
      assert (Hz : Forall (fun g => g == 0)%Q (code_weights t penetrance))
        by (vm_compute; repeat (apply Forall_cons; [reflexivity |]); apply Forall_nil)
  end.
  split; [exact Hne |]. split; [exact Hz |].
  exact (BinomialModel_generate_genotype_degenerate Fixture.rng
           Fixture.random_random Fixture.joint_maf Fixture.sample_categorical
           fp _ penetrance [] 0%nat 0%nat Hm Hne Hz).
Defined.

Lemma NormalModel_generate_phenotype_count_witness :
  let self := {| nm_mu := [0; 2]%Q; nm_std := [0; 0]%Q; nm_maf := [1 # 2; 1 # 2]%Q |} in
  let fp := {| fp_maf := [1 # 5; 3 # 10]%Q; fp_ld := None; fp_sample_size := [3];
               fp_sample_maf := false |} in
  let phenotype := [0 # 4; 4 # 4; 8 # 4]%Q in
  (exists s',
     NormalModel_generate_phenotype Fixture.rng Fixture.normal_deviate
       Fixture.sqrt_nonneg self fp 0%nat = (Ok phenotype, s'))
  /\ exists n, num_samples fp = Ok n /\ 3 = Z.max 0 n.
Proof.
  intros self fp phenotype.
  assert (H : NormalModel_generate_phenotype Fixture.rng Fixture.normal_deviate
                Fixture.sqrt_nonneg self fp 0%nat = (Ok phenotype, 3%nat))
    by (vm_compute; reflexivity).
  split; [exists 3%nat; exact H |].
  exact (NormalModel_generate_phenotype_count Fixture.rng Fixture.normal_deviate
           Fixture.sqrt_nonneg self fp 0%nat 3%nat phenotype H).
Defined.

Lemma NormalModel_generate_genotype_raises_witness :
  let self := {| nm_mu := repeat 0%Q 9; nm_std := repeat 1%Q 9;
                 nm_maf := Fixture.uniform_table |} in
  let fp := {| fp_maf := [1 # 5; 3 # 10]%Q; fp_ld := None; fp_sample_size := [5];
               fp_sample_maf := false |} in
  exists f maf,
    get_maf Fixture.rng Fixture.random_random Fixture.joint_maf fp 0%nat
    = (Ok (f :: maf), 0%nat)
    /\ NormalModel_generate_genotype Fixture.rng Fixture.random_random
         Fixture.math_exp Fixture.math_pi Fixture.sqrt_nonneg Fixture.joint_maf
         Fixture.sample_categorical self fp (repeat 0%Q 9) (repeat 1%Q 9)
         [1 # 2; 3 # 2]%Q 0%nat = (Raise TypeError, 0%nat).
Proof.
  intros self fp. eexists. eexists.
  assert (Hm : get_maf Fixture.rng Fixture.random_random Fixture.joint_maf fp 0%nat
               = (Ok ((196 # 625) :: [168 # 625; 36 # 625; 98 # 625; 84 # 625;
                                      18 # 625; 49 # 2500; 21 # 1250; 9 # 2500])%Q,
                  0%nat)) by (vm_compute; reflexivity).
  split; [exact Hm |].
  exact (proj1 (NormalModel_generate_genotype_raises Fixture.rng
                  Fixture.random_random Fixture.math_exp Fixture.math_pi
                  Fixture.sqrt_nonneg Fixture.joint_maf Fixture.sample_categorical
                  self fp 0 1 _ (1 # 2) (repeat 0%Q 8) (repeat 1%Q 8) _
                  [3 # 2]%Q 0%nat 0%nat Hm)).
Defined.

Lemma NormalModel_normpdf_zero_sd_witness :
  (0 == 0)%Q
  /\ ((- inject_Z (10 ^ 150) <= 1 - 0)%Q /\ (1 - 0 <= inject_Z (10 ^ 150))%Q)
  /\ NormalModel_normpdf Fixture.math_exp Fixture.math_pi Fixture.sqrt_nonneg
       [VFloat 1; VFloat 0; VFloat 0] = Raise ZeroDivisionError.
Proof.
  assert (H : (0 == 0)%Q) by reflexivity.
  assert (Hb : (- inject_Z (10 ^ 150) <= 1 - 0)%Q
               /\ (1 - 0 <= inject_Z (10 ^ 150))%Q)
    by (split; vm_compute; discriminate).
  split; [exact H |]. split; [exact Hb |].
  exact (NormalModel_normpdf_zero_sd Fixture.math_exp Fixture.math_pi
           Fixture.sqrt_nonneg 1 0 0 H Hb).
Defined.

Lemma GeneralMuMap_map_table_witness :
  let mu := map inject_Z [0; 1; 2; 3; 4; 5; 6; 7; 8] in
  List.length mu = 9%nat /\ 2 <> 3 /\ 1 <> 3 /\ -1 <> 3 /\ 0 <> 3
  /\ MuMap_map Fixture.math_pi (GeneralMuMap mu) [2; 1] = Ok (VFloat 7)
  /\ MuMap_map Fixture.math_pi (GeneralMuMap mu) [-1; 0] = Ok (VFloat 6)
  /\ MuMap_map Fixture.math_pi (GeneralMuMap mu) [2; 4] = Raise IndexError.
Proof.
  intros mu.
  assert (Hlen : List.length mu = 9%nat) by reflexivity.
  assert (H2 : 2 <> 3) by lia. assert (H1 : 1 <> 3) by lia.
  assert (Hm : -1 <> 3) by lia. assert (H0 : 0 <> 3) by lia.
  assert (H4 : 4 <> 3) by lia.
  split; [exact Hlen |]. split; [exact H2 |]. split; [exact H1 |].
  split; [exact Hm |]. split; [exact H0 |].
  split; [| split].
  - exact (GeneralMuMap_map_table Fixture.math_pi mu 2 1 Hlen H2 H1).
  - exact (GeneralMuMap_map_table Fixture.math_pi mu (-1) 0 Hlen Hm H0).
  - exact (GeneralMuMap_map_table Fixture.math_pi mu 2 4 Hlen H2 H4).
Defined.

Lemma BinomialPhenoGenerator_threshold_witness :
  let mu_map := GeneralMuMap (repeat (3 # 4) 9) in
  MuMap_map Fixture.math_pi mu_map [2; 1] = Ok (VFloat (3 # 4))
  /\ generate_pheno Fixture.rng Fixture.random_random Fixture.normal_deviate
       Fixture.math_pi (BinomialPhenoGenerator mu_map) [2; 1] 0%nat
     = (Ok (VInt 1), 1%nat).
Proof.
  intros mu_map.
  assert (Hmu : MuMap_map Fixture.math_pi mu_map [2; 1] = Ok (VFloat (3 # 4)))
    by reflexivity.
  split; [exact Hmu |].
  destruct (BinomialPhenoGenerator_threshold Fixture.rng Fixture.random_random
              Fixture_random_random_range Fixture.normal_deviate Fixture.math_pi
              mu_map [2; 1] (3 # 4) 0%nat Hmu) as (Hs & _ & Hone & _ & _).
  apply injective_projections.
  - apply Hone. unfold Qle. simpl. lia.
  - exact Hs.
Defined.

Lemma generate_pheno_lookup_valid_states_witness :
  let mu := map inject_Z [0; 1; 2; 3; 4; 5; 6; 7; 8] in
  List.length mu = 9%nat /\ 0 <= 2 <= 2 /\ 0 <= 1 <= 2
  /\ generate_pheno Fixture.rng Fixture.random_random Fixture.normal_deviate
       Fixture.math_pi (NormalPhenoGenerator (GeneralMuMap mu) 2) [2; 1] 3%nat
     = (Ok (VFloat (7 + (3 - 1) * 2)), 4%nat).
Proof.
  intros mu.
  assert (Hlen : List.length mu = 9%nat) by reflexivity.
  assert (H2 : 0 <= 2 <= 2) by lia. assert (H1 : 0 <= 1 <= 2) by lia.
  split; [exact Hlen |]. split; [exact H2 |]. split; [exact H1 |].
  exact (proj2 (generate_pheno_lookup_valid_states Fixture.rng
                  Fixture.random_random Fixture.normal_deviate Fixture.math_pi
                  mu 2 2 1 3%nat Hlen H2 H1)).
Defined.

Lemma odds_link_pole_witness :
  exists f,
    get_link Fixture.math_exp Fixture.log_pos Fixture.exp_max "odds" = Some f
    /\ f (-1)%Q = Raise ZeroDivisionError.
Proof.
  destruct (odds_link_pole Fixture.math_exp Fixture.log_pos Fixture.exp_max (-1)%Q)
    as (f & Hf & Hpole & _).
  exists f. split; [exact Hf | apply Hpole; reflexivity].
Defined.

Lemma logodds_link_range_witness :
  (- 0 <= Fixture.exp_max)%Q /\ (0 <= Fixture.math_exp (- 0))%Q
  /\ (Fixture.exp_max < - (- 1000))%Q
  /\ exists f f',
       get_link Fixture.math_exp Fixture.log_pos Fixture.exp_max "logodds" = Some f
       /\ (exists y, f 0%Q = Ok y /\ (0 < y)%Q /\ (y <= 1)%Q)
       /\ get_link Fixture.math_exp Fixture.log_pos Fixture.exp_max "logodds"
          = Some f'
       /\ f' (- 1000)%Q = Raise OverflowError.
Proof.
  assert (H0 : (- 0 <= Fixture.exp_max)%Q) by (vm_compute; discriminate).
  assert (H1 : (0 <= Fixture.math_exp (- 0))%Q) by (vm_compute; discriminate).
  assert (H2 : (Fixture.exp_max < - (- 1000))%Q) by (vm_compute; reflexivity).
  split; [exact H0 |]. split; [exact H1 |]. split; [exact H2 |].
  destruct (logodds_link_range Fixture.math_exp Fixture.log_pos Fixture.exp_max 0)
    as (f & Hf & _ & Hin).
  destruct (logodds_link_range Fixture.math_exp Fixture.log_pos Fixture.exp_max
              (- 1000)) as (f' & Hf' & Hover & _).
  exists f, f'. split; [exact Hf |]. split; [exact (Hin H0 H1) |].
  split; [exact Hf' | exact (Hover H2)].
Defined.

Lemma get_mean_values_identity_lookup_witness :
  0 <= 1 <= 2 /\ 0 <= 2 <= 2
  /\ exists mu m,
       get_mean_values [1; 2; 3; 4; 5; 6; 7; 8; 9]%Q (fun x => Ok x) = Ok mu
       /\ MuMap_map Fixture.math_pi (GeneralMuMap mu) [1; 2] = Ok (VFloat m)
       /\ (m == 1 + 3 + 4 + 7)%Q.
Proof.
  assert (Hi : 0 <= 1 <= 2) by lia. assert (Hj : 0 <= 2 <= 2) by lia.
  split; [exact Hi |]. split; [exact Hj |].
  exact (get_mean_values_identity_lookup Fixture.math_pi 1 2 3 4 5 6 7 8 9 1 2
           Hi Hj).
Defined.

Lemma get_mean_values_nine_entries_witness :
  (forall x : Q, exists y, (fun x => Ok x) x = Ok y)
  /\ (exists mu, get_mean_values [1; 2]%Q (fun x => Ok x) = Ok mu
                 /\ List.length mu = 9%nat)
  /\ get_mean_values [] (fun x => Ok x) = Ok (repeat 0%Q 9).
Proof.
  assert (H : forall x : Q, exists y, (fun x => Ok x) x = Ok y)
    by (intros x; exists x; reflexivity).
  split; [exact H |].
  destruct (get_mean_values_nine_entries [1; 2]%Q (fun x => Ok x) H) as [H1 H2].
  split; [exact H1 | exact (H2 0%Q eq_refl)].
Defined.

Lemma get_mean_values_log_link_intercept_witness :
  (0 <= 0)%Q
  /\ exists lf,
       get_link Fixture.math_exp Fixture.log_pos Fixture.exp_max "exp" = Some lf
       /\ get_mean_values [0; 1; 1; 1; 1; 1; 1; 1; 1]%Q lf
          = Raise (ValueError "math domain error").
Proof.
  assert (H : (0 <= 0)%Q) by (unfold Qle; simpl; lia).
  split; [exact H |].
  exact (get_mean_values_log_link_intercept Fixture.math_exp Fixture.log_pos
           Fixture.exp_max 0 1 1 1 1 1 1 1 1 H).
Defined.

Lemma get_models_accepted_witness :
  let mu_map := GeneralMuMap (repeat (1 # 2) 9) in
  exists joint,
    In "normal"%string get_models
    /\ Fixture.joint_maf [1 # 5; 3 # 10]%Q None = Ok joint
    /\ (exists generator, get_pheno_generator "normal" mu_map 1 = Ok generator)
    /\ (exists mp, get_model_and_params Fixture.joint_maf "normal"
                     (repeat (1 # 2) 9) 1 [1 # 5; 3 # 10]%Q = Ok mp).
Proof.
  intros mu_map. eexists.
  assert (Hin : In "normal"%string get_models) by (left; reflexivity).
  assert (Hj : Fixture.joint_maf [1 # 5; 3 # 10]%Q None
               = Ok (match Fixture.joint_maf [1 # 5; 3 # 10]%Q None with
                     | Ok t => t
                     | Raise _ => []
                     end)) by reflexivity.
  split; [exact Hin |]. split; [exact Hj |].
  exact (get_models_accepted Fixture.joint_maf "normal" mu_map 1
           (repeat (1 # 2) 9) 1 [1 # 5; 3 # 10]%Q _ Hin Hj).
Defined.

Lemma get_model_and_params_joint_maf_raises_witness :
  Fixture.joint_maf [] None = Raise IndexError
  /\ get_model_and_params Fixture.joint_maf "normal" (repeat (1 # 2) 9) 1 []
     = Raise IndexError.
Proof.
  assert (H : Fixture.joint_maf [] None = Raise IndexError) by reflexivity.
  split; [exact H |].
  exact (proj1 (get_model_and_params_joint_maf_raises Fixture.joint_maf
                  (repeat (1 # 2) 9) 1 [] IndexError H)).
Defined.

Lemma BinomialModel_phenotype_then_genotype_witness :
  let fp := {| fp_maf := [1 # 5; 3 # 10]%Q; fp_ld := None; fp_sample_size := [2; 1];
               fp_sample_maf := false |} in
  let penetrance := [1; 0; 0; 0; 0; 0; 0; 0; 1 # 2]%Q in
  BinomialModel_generate_phenotype fp = Ok [1; 1; 0]
  /\ BinomialModel_generate_genotype Fixture.rng Fixture.random_random
       Fixture.joint_maf Fixture.sample_categorical fp penetrance [1; 1; 0] 0%nat
     = (Ok ([0; 0; 0], [0; 1; 2]), 3%nat)
  /\ Z.of_nat (List.length [0; 0; 0]) = 3
  /\ Z.of_nat (List.length [0; 1; 2]) = 3.
Proof.
  intros fp penetrance.
  assert (Hph : BinomialModel_generate_phenotype fp = Ok [1; 1; 0]) by reflexivity.
  assert (Hg : BinomialModel_generate_genotype Fixture.rng Fixture.random_random
                 Fixture.joint_maf Fixture.sample_categorical fp penetrance
                 [1; 1; 0] 0%nat = (Ok ([0; 0; 0], [0; 1; 2]), 3%nat))
    by (vm_compute; reflexivity).
  split; [exact Hph |]. split; [exact Hg |].
  exact (BinomialModel_phenotype_then_genotype Fixture.rng Fixture.random_random
           Fixture.joint_maf Fixture.sample_categorical [1 # 5; 3 # 10]%Q None
           false 2 1 [] penetrance [1; 1; 0] [0; 0; 0] [0; 1; 2] 0%nat 3%nat
           Hph Hg).
Defined.

Lemma get_link_log_exp_swapped_witness :
  (1 <= Fixture.exp_max)%Q /\ (Fixture.exp_max < 1000)%Q /\ (0 <= 0)%Q /\ (0 < 1)%Q
  /\ exists f g,
       get_link Fixture.math_exp Fixture.log_pos Fixture.exp_max "log" = Some f
       /\ get_link Fixture.math_exp Fixture.log_pos Fixture.exp_max "exp" = Some g
       /\ f 1%Q = Ok (Fixture.math_exp 1)
       /\ f 1000%Q = Raise OverflowError
       /\ g 0%Q = Raise (ValueError "math domain error")
       /\ g 1%Q = Ok (Fixture.log_pos 1).
Proof.
  assert (H1 : (1 <= Fixture.exp_max)%Q) by (vm_compute; discriminate).
  assert (H2 : (Fixture.exp_max < 1000)%Q) by (vm_compute; reflexivity).
  assert (H3 : (0 <= 0)%Q) by (vm_compute; discriminate).
  assert (H4 : (0 < 1)%Q) by (vm_compute; reflexivity).
  split; [exact H1 |]. split; [exact H2 |]. split; [exact H3 |].
  split; [exact H4 |].
  destruct (get_link_log_exp_swapped Fixture.math_exp Fixture.log_pos
              Fixture.exp_max) as (f & g & Hf & Hg & Ha & Hb & Hc & Hd).
  exists f, g. split; [exact Hf |]. split; [exact Hg |].
  split; [exact (Ha 1%Q H1) |]. split; [exact (Hb 1000%Q H2) |].
  split; [exact (Hc 0%Q H3) | exact (Hd 1%Q H4)].
Defined.
